(** * Manifest audit pipeline (main.py): a shallow embedding and its properties

    The Python module harvests Apps Script manifests for every active
    user of a domain and upserts them into a BigQuery table.  The
    embedding follows the module top to bottom: the start-up block that
    reads the environment, the impersonation helper, the merge-upsert
    sink, the batcher, the retried manifest extractor, the two paginated
    listings and the entry point.

    Remote services are not part of the module; their behaviour is an
    oracle ([Env]) that the functions consult.  Python exceptions are a
    value of type [exn] carried by [Raise]; every function that can
    raise or touch shared state lives in the monad [M].

    The worker pool: every scan is a thread of its own, answered by the
    oracles from an index of its own; the collecting thread takes the
    results in completion order; what the threads record (requests, log
    records, sleeps) reaches the shared lists in an order chosen by the
    environment among the interleavings the pool allows.

    Not modelled: the SIGTERM handler. *)

From stdpp Require Import gmap strings list fin_maps pretty sorting.
From Stdlib Require Import ZArith Ascii.

Local Open Scope Z_scope.

(** ** Exceptions and results *)

(** The exception classes the module distinguishes.  All of them derive
    from Python's [Exception], so an [except Exception] clause catches
    every value of this type. *)
Inductive exn : Type :=
| HttpError (status : Z)              (* googleapiclient.errors.HttpError, e.resp.status *)
| TooManyRequests                     (* google.api_core.exceptions.TooManyRequests *)
| OtherException (msg : string)       (* any other subclass of Exception *)
| RetryError (last : exn).            (* tenacity.RetryError around the last attempt *)

Inductive result (A : Type) : Type :=
| Ret (a : A)
| Raise (e : exn).
Arguments Ret {A} a.
Arguments Raise {A} e.

(** [str(e)], as used by the f-string of the top-level handler. *)
Fixpoint str_exn (e : exn) : string :=
  match e with
  | HttpError st => "HttpError " +:+ pretty st
  | TooManyRequests => "429 Too Many Requests"
  | OtherException msg => msg
  | RetryError last => "RetryError[" +:+ str_exn last +:+ "]"
  end.

(** ** Start-up: environment and configuration (lines 31-55) *)

Fixpoint contains_dot (s : string) : bool :=
  match s with
  | EmptyString => false
  | String c r => if decide (c = "."%char) then true else contains_dot r
  end.

(** [s.split('.')[-1]]: the component after the last dot. *)
Fixpoint split_dot_last (s : string) : string :=
  match s with
  | EmptyString => EmptyString
  | String c r =>
      if contains_dot r then split_dot_last r
      else if decide (c = "."%char) then r else String c r
  end.

(** Truth value of an [os.environ.get] result: [None] and [''] are falsy. *)
Definition truthy (o : option string) : bool :=
  match o with
  | Some s => negb (bool_decide (s = ""))
  | None => false
  end.

(** [if X and '.' in X: X = X.split('.')[-1]] *)
Definition sanitize (o : option string) : option string :=
  match o with
  | Some s => if truthy o && contains_dot s then Some (split_dot_last s) else o
  | None => None
  end.

Record Settings : Type := {
  PROJECT_ID : option string;
  DATASET_ID : option string;
  MANIFEST_TABLE_ID : option string;
  ADMIN_USER_EMAIL : option string;
  SERVICE_ACCOUNT_EMAIL : option string
}.

Inductive StartupEvent : Type :=
| CriticalMissingEnv                   (* logger.critical("Missing required ...") *)
| CriticalClientInit (e : exn)         (* logger.critical("Failed to initialize ...") *)
| ClientInit (project : option string). (* bigquery.Client(project=PROJECT_ID) *)

Inductive Startup : Type :=
| SysExit (code : Z)
| Loaded (s : Settings).

(** The module body up to the creation of [BQ_CLIENT].  [environ] is
    [os.environ]; [client_init] says whether the BigQuery client
    constructor raises.  The second component lists what the block did,
    in order. *)
Definition module_init (environ : gmap string string)
    (client_init : option string → option exn) : Startup * list StartupEvent :=
  let project := environ !! "PROJECT_ID" in
  let dataset := environ !! "DATASET_ID" in
  let table := Some (default "manifest_audit_log" (environ !! "MANIFEST_TABLE_ID")) in
  let admin := environ !! "ADMIN_USER_EMAIL" in
  let service := environ !! "SERVICE_ACCOUNT_EMAIL" in
  let dataset := sanitize dataset in
  let table := sanitize table in
  if negb (forallb truthy [project; admin; service]) then
    (SysExit 1, [CriticalMissingEnv])
  else
    match client_init project with
    | Some e => (SysExit 1, [ClientInit project; CriticalClientInit e])
    | None =>
        (Loaded {| PROJECT_ID := project; DATASET_ID := dataset;
                   MANIFEST_TABLE_ID := table; ADMIN_USER_EMAIL := admin;
                   SERVICE_ACCOUNT_EMAIL := service |},
         [ClientInit project])
    end.

(** ** Data exchanged with the remote services *)

(** A directory entry: [u.get('primaryEmail')], [u.get('suspended')]. *)
Record User : Type := { primaryEmail : string; suspended : bool }.

(** A Drive file as listed with [fields='nextPageToken, files(id, name)']. *)
Record DriveFile : Type := { file_id : string; file_name : string }.

(** One entry of [content_resp['files']]; each field is read with [.get]. *)
Record ScriptFile : Type := {
  sf_name : option string;
  sf_type : option string;
  sf_source : option string
}.

(** The response of [projects().getContent]; the key ['files'] may be absent. *)
Record ContentResp : Type := { resp_files : option (list ScriptFile) }.

(** A row of the audit table, and the dict built at lines 229-235. *)
Record Row : Type := {
  script_id : string;
  script_name : string;
  owner_email : string;
  manifest_content : string;
  extraction_date : string
}.

Global Instance Row_eq_dec : EqDecision Row.
Proof. solve_decision. Defined.

(** What a paginated listing answers, page after page: a last page
    without [nextPageToken], a page with a token followed by the rest,
    or a request that raises. *)
Inductive listing (A : Type) : Type :=
| LastPage (items : list A)
| NextPage (items : list A) (rest : listing A)
| FailedPage (e : exn).
Arguments LastPage {A} items.
Arguments NextPage {A} items rest.
Arguments FailedPage {A} e.

(** A handle returned by [build(api_name, api_version, credentials=...)]. *)
Record Service : Type := { svc_api : string; svc_subject : string }.

(** ** Observable behaviour: log records and trace of calls *)

Inductive level : Type := INFO | WARNING | ERROR | CRITICAL.

Inductive LogMsg : Type :=
| AuthError (subject api : string) (e : exn)
| Merged (n : nat) (table_id : string)
| MergeFailed (table_id : string) (e : exn)
| Flushing (n : nat) (table_id : string)
| AccessFoundError (script : string) (e : exn)
| UnknownManifestError (script : string) (e : exn)
| FetchingUsers
| TotalActiveUsers (n : nat)
| ErrorFetchingUsers (e : exn)
| SkippingUser (email : string)
| UserScanRetrieved (n : nat) (email : string)
| ErrorScanningUser (email : string) (e : exn)
| StartingPipeline
| NoUsersFound
| WorkerException (email : string) (e : exn)
| PipelineCompleted
| PipelineCriticalFailure (e : exn).

(** Requests sent to a remote service, plus [EvSink], which marks an
    entry into [execute_merge_query] with its arguments. *)
Inductive Event : Type :=
| EvAuth (api version subject : string)
| EvUsersList
| EvFilesList (subject : string)
| EvGetContent (subject script : string)
| EvGetTable (table : string)
| EvLoad (table : string) (rows : list Row)
| EvMerge (target staging : string)
| EvDeleteTable (table : string)
| EvSink (table_id : string) (rows : list Row).

(** The [BigQueryBatcher] object: [self.table_id], [self.buffer]. *)
Record Batcher : Type := { table_id : string; buffer : list Row }.

(** Everything the run can change: the index under which the oracles
    answer the next request of the running thread (one more after every
    request), the log, the trace, the back-off sleeps, the tables of the
    dataset [DATASET_ID] (target and staging tables, by name) and the
    batcher object. *)
Record World : Type := mkWorld {
  clock : nat;
  log : list (level * LogMsg);
  trace : list Event;
  sleeps : list Z;
  dataset : gmap string (list Row);
  batcher : Batcher
}.

(** How the outside answers.  Every oracle that can differ from one
    request to the next is indexed by the clock. *)
Record Env : Type := {
  auth : nat → string → string → option exn;
  users_listing : listing User;
  files_listing : string → listing DriveFile;
  content : nat → string → string → result ContentResp;
  bq_fault : nat → Event → option exn;
  now_timestamp : nat → Z;
  getpid : Z;
  utcnow_isoformat : nat → string;
  thread_clock : nat → nat;       (* index from which the i-th submitted scan is answered *)
  completion_rank : nat → nat;    (* the futures complete by increasing rank *)
  trace_schedule : list nat;      (* who records next: 0 the collector, S i the i-th scan *)
  log_schedule : list nat;
  sleep_schedule : list nat
}.

(** ** The monad of the module's functions *)

Definition M (A : Type) : Type := World → result A * World.

Global Instance M_ret : MRet M := λ A a w, (Ret a, w).
Global Instance M_bind : MBind M := λ A B f m w,
  match m w with
  | (Ret a, w') => f a w'
  | (Raise e, w') => (Raise e, w')
  end.

Definition raise {A} (e : exn) : M A := λ w, (Raise e, w).

(** [try: m  except Exception as e: h e] *)
Definition try_except {A} (m : M A) (h : exn → M A) : M A := λ w,
  match m w with
  | (Ret a, w') => (Ret a, w')
  | (Raise e, w') => h e w'
  end.

(** [try: m  finally: f]: [f] runs on both exits; if [f] raises, its
    exception replaces the outcome of [m]. *)
Definition try_finally {A} (m : M A) (f : M unit) : M A := λ w,
  match m w with
  | (r, w') =>
      match f w' with
      | (Ret _, w'') => (r, w'')
      | (Raise e, w'') => (Raise e, w'')
      end
  end.

Definition get_world : M World := λ w, (Ret w, w).

Definition logger (l : level) (msg : LogMsg) : M unit := λ w,
  (Ret (), mkWorld (clock w) (log w ++ [(l, msg)]) (trace w) (sleeps w) (dataset w) (batcher w)).

Definition mark (ev : Event) : M unit := λ w,
  (Ret (), mkWorld (clock w) (log w) (trace w ++ [ev]) (sleeps w) (dataset w) (batcher w)).

(** A remote request: recorded in the trace; returns the clock value
    under which the oracle is consulted and advances the clock. *)
Definition request (ev : Event) : M nat := λ w,
  (Ret (clock w), mkWorld (S (clock w)) (log w) (trace w ++ [ev]) (sleeps w) (dataset w) (batcher w)).

Definition sleep (seconds : Z) : M unit := λ w,
  (Ret (), mkWorld (clock w) (log w) (trace w) (sleeps w ++ [seconds]) (dataset w) (batcher w)).

Definition set_dataset (d : gmap string (list Row)) : M unit := λ w,
  (Ret (), mkWorld (clock w) (log w) (trace w) (sleeps w) d (batcher w)).

Definition set_batcher (b : Batcher) : M unit := λ w,
  (Ret (), mkWorld (clock w) (log w) (trace w) (sleeps w) (dataset w) b).

(** f-string rendering of a module global. *)
Definition fmt (o : option string) : string := default "None" o.

(** ** The MERGE statement (lines 120-133)

    [merge_statement T S] is the target table after
    [MERGE T USING S ON T.script_id = S.script_id ...], or [None] when
    the statement is rejected.  The join is taken against the target as
    it stands before the statement: a target row with one matching
    staging row gets the four assigned columns of that row, a staging
    row without any matching target row is inserted, and a target row
    matched by more than one staging row aborts the statement. *)

Definition update_set (t s : Row) : Row :=
  {| script_id := script_id t;
     script_name := script_name s;
     owner_email := owner_email s;
     manifest_content := manifest_content s;
     extraction_date := extraction_date s |}.

Definition when_matched (S : list Row) (t : Row) : Row :=
  match list_find (λ s, script_id t = script_id s) S with
  | Some (_, s) => update_set t s
  | None => t
  end.

Definition when_not_matched (T S : list Row) : list Row :=
  filter (λ s, script_id s ∉ script_id <$> T) S.

Definition ambiguous (T S : list Row) : Prop :=
  Exists (λ t, (1 < length (filter (λ s, script_id t = script_id s) S))%nat) T.

Definition merge_statement (T S : list Row) : option (list Row) :=
  if decide (ambiguous T S) then None
  else Some ((when_matched S <$> T) ++ when_not_matched T S).

(** ** BigQuery operations and the merge-upsert sink (lines 103-141) *)

Definition BQ_BATCH_SIZE : nat := 500.
Definition MAX_WORKERS : nat := 8.

Definition NotFound (table : string) : exn :=
  OtherException ("404 Not found: Table " +:+ table).

Definition MergeRejected : exn :=
  OtherException "UPDATE/MERGE must match at most one source row for each target row".

Section Pipeline.

Context (cfg : Settings) (E : Env).

(** One BigQuery request: recorded, then either the injected fault is
    raised and the tables stay as they are, or [effect] decides. *)
Definition bq_request (ev : Event)
    (effect : gmap string (list Row) → result (gmap string (list Row))) : M unit :=
  t ← request ev;
  w ← get_world;
  match bq_fault E t ev with
  | Some e => raise e
  | None =>
      match effect (dataset w) with
      | Ret d => set_dataset d
      | Raise e => raise e
      end
  end.

(** [BQ_CLIENT.get_table(ref)]: fails on a table that does not exist. *)
Definition get_table (table : string) : M unit :=
  bq_request (EvGetTable table)
    (λ d, match d !! table with Some _ => Ret d | None => Raise (NotFound table) end).

(** [load_table_from_json(rows, ref, job_config).result()] with
    [WRITE_TRUNCATE]: the table holds exactly [rows] afterwards. *)
Definition load_table_from_json (rows : list Row) (table : string) : M unit :=
  bq_request (EvLoad table rows) (λ d, Ret (<[table := rows]> d)).

(** [f"{PROJECT_ID}.{DATASET_ID}.{name}"] *)
Definition qualified (name : string) : string :=
  fmt (PROJECT_ID cfg) +:+ "." +:+ fmt (DATASET_ID cfg) +:+ "." +:+ name.

(** [BQ_CLIENT.query(MERGE ...).result()]; the statement names both
    tables with their project and dataset. *)
Definition query_merge (target staging : string) : M unit :=
  bq_request (EvMerge (qualified target) (qualified staging))
    (λ d, match d !! target, d !! staging with
          | Some tgt, Some src =>
              match merge_statement tgt src with
              | Some tgt' => Ret (<[target := tgt']> d)
              | None => Raise MergeRejected
              end
          | None, _ => Raise (NotFound target)
          | _, None => Raise (NotFound staging)
          end).

(** [BQ_CLIENT.delete_table(ref, not_found_ok=True)] *)
Definition delete_table (table : string) : M unit :=
  bq_request (EvDeleteTable table) (λ d, Ret (delete table d)).

(** [BQ_CLIENT.dataset(DATASET_ID)] at lines 109-110, before the [try]:
    the reference is built locally and the constructor refuses a
    dataset identifier that is not a string. *)
Definition dataset_reference : M unit :=
  match DATASET_ID cfg with
  | Some _ => mret ()
  | None => raise (OtherException "Pass a string for dataset_id")
  end.

(** [f"{table_id}_staging_{int(now().timestamp())}_{os.getpid()}"] *)
Definition temp_table_name (tid : string) (t : nat) : string :=
  tid +:+ "_staging_" +:+ pretty (now_timestamp E t) +:+ "_" +:+ pretty (getpid E).

Definition execute_merge_query (tid : string) (rows_to_insert : list Row) : M unit :=
  mark (EvSink tid rows_to_insert);;
  match rows_to_insert with
  | [] => mret ()
  | _ =>
      w ← get_world;
      let temp_table_id := temp_table_name tid (clock w) in
      dataset_reference;;
      try_finally
        (try_except
           (get_table tid;;
            load_table_from_json rows_to_insert temp_table_id;;
            query_merge tid temp_table_id;;
            logger INFO (Merged (length rows_to_insert) tid))
           (λ e, logger ERROR (MergeFailed tid e)))
        (delete_table temp_table_id)
  end.

(** ** The batcher (lines 143-158) *)

Definition BigQueryBatcher (tid : string) : M unit :=
  set_batcher {| table_id := tid; buffer := [] |}.

Definition flush : M unit :=
  w ← get_world;
  match buffer (batcher w) with
  | [] => mret ()
  | _ =>
      logger INFO (Flushing (length (buffer (batcher w))) (table_id (batcher w)));;
      execute_merge_query (table_id (batcher w)) (buffer (batcher w));;
      set_batcher {| table_id := table_id (batcher w); buffer := [] |}
  end.

Definition add (rows : list Row) : M unit :=
  match rows with
  | [] => mret ()
  | _ =>
      w ← get_world;
      set_batcher {| table_id := table_id (batcher w); buffer := buffer (batcher w) ++ rows |};;
      w' ← get_world;
      if decide (BQ_BATCH_SIZE ≤ length (buffer (batcher w')))%nat then flush else mret ()
  end.

End Pipeline.

(** ** The retry decorator (lines 164-166)

    [retry_if_exception_type((TooManyRequests, HttpError))],
    [wait_exponential(multiplier=1, min=2, max=10)] and
    [stop_after_attempt(3)], with the decorator's defaults: when the stop
    condition holds after a retryable failure the decorator raises
    [RetryError] around the last attempt. *)

Definition retry_if_exception_type (e : exn) : bool :=
  match e with
  | TooManyRequests | HttpError _ => true
  | _ => false
  end.

Definition wait_exponential (multiplier min max : Z) (attempt_number : nat) : Z :=
  Z.max (Z.max 0 min) (Z.min (multiplier * 2 ^ (Z.of_nat attempt_number - 1)) max).

Definition stop_after_attempt (max_attempt_number attempt_number : nat) : bool :=
  bool_decide (max_attempt_number ≤ attempt_number)%nat.

(** The decorator's loop, from world [w].  [attempt_number] starts at 1;
    [budget] only bounds the recursion and is never exhausted before the
    stop condition holds.  The third component is the decorator's
    [attempt_number] statistic: the number of invocations of [f]. *)
Fixpoint retry_loop {A} (budget attempt_number : nat) (f : M A) (w : World)
    : result A * World * nat :=
  match f w with
  | (Ret a, w1) => (Ret a, w1, attempt_number)
  | (Raise e, w1) =>
      if retry_if_exception_type e then
        if stop_after_attempt 3 attempt_number then
          (Raise (RetryError e), w1, attempt_number)
        else
          match budget with
          | O => (Raise (RetryError e), w1, attempt_number)
          | S budget' =>
              retry_loop budget' (S attempt_number) f
                (snd (sleep (wait_exponential 1 2 10 attempt_number) w1))
          end
      else (Raise e, w1, attempt_number)
  end.

Definition retry {A} (f : M A) : M A := λ w, fst (retry_loop 3 1 f w).

Section Scan.

Context (cfg : Settings) (E : Env).

(** ** Impersonation helper (lines 80-97) *)

Definition get_impersonated_service (api_name api_version subject_email : string)
    : M (option Service) :=
  t ← request (EvAuth api_name api_version subject_email);
  match auth E t api_name subject_email with
  | None => mret (Some {| svc_api := api_name; svc_subject := subject_email |})
  | Some e => logger ERROR (AuthError subject_email api_name e);; mret None
  end.

(** ** Manifest extractor (lines 167-181) *)

Definition is_manifest (f : ScriptFile) : Prop :=
  sf_name f = Some "appsscript" ∧ sf_type f = Some "JSON".

Global Instance is_manifest_dec f : Decision (is_manifest f).
Proof. unfold is_manifest. apply _. Defined.

(** [script_service.projects().getContent(scriptId=script_id).execute()] *)
Definition getContent (script_service : Service) (sid : string) : M ContentResp :=
  t ← request (EvGetContent (svc_subject script_service) sid);
  match content E t (svc_subject script_service) sid with
  | Ret resp => mret resp
  | Raise e => raise e
  end.

(** The [for f in files] loop of lines 171-174: the source of the first
    file named ['appsscript'] of type ['JSON'], else [None]. *)
Definition manifest_of (files : list ScriptFile) : option string :=
  match list_find is_manifest files with
  | Some (_, f) => sf_source f
  | None => None
  end.

(** The function body, without the decorator. *)
Definition get_manifest_content_body (sid : string) (script_service : Service)
    : M (option string) :=
  try_except
    (content_resp ← getContent script_service sid;
     let files := default [] (resp_files content_resp) in
     mret (manifest_of files))
    (λ e,
       match e with
       | HttpError status =>
           (if decide (status ∈ [403; 404])
            then logger WARNING (AccessFoundError sid e)
            else mret ());;
           raise e
       | _ => logger ERROR (UnknownManifestError sid e);; mret None
       end).

Definition get_manifest_content (sid : string) (script_service : Service)
    : M (option string) :=
  retry (get_manifest_content_body sid script_service).

(** ** Directory listing (lines 183-200) *)

(** The [while True] loop over the pages.  The local list [users] is
    threaded explicitly; the second component is the exception that
    ended the loop, if any. *)
Fixpoint users_pages (pages : listing User) (users : list User)
    : M (list User * option exn) :=
  request EvUsersList;;
  match pages with
  | FailedPage e => mret (users, Some e)
  | LastPage items =>
      mret (users ++ filter (λ u, suspended u = false) items, None)
  | NextPage items rest =>
      users_pages rest (users ++ filter (λ u, suspended u = false) items)
  end.

Definition get_all_domain_users (directory_service : Service) : M (list User) :=
  logger INFO FetchingUsers;;
  '(users, failure) ← users_pages (users_listing E) [];
  match failure with
  | None => logger INFO (TotalActiveUsers (length users));; mret users
  | Some e => logger ERROR (ErrorFetchingUsers e);; mret []
  end.

(** ** Per-user scan (lines 202-247) *)

(** Truth value of the extractor's result: [None] and [''] are falsy. *)
Definition nonempty (manifest_json : option string) : bool := truthy manifest_json.

(** Body of the inner [for f in files] loop for one file. *)
Definition scan_file (user_email : string) (script_service : Service)
    (f : DriveFile) (manifest_rows : list Row) : M (list Row) :=
  let sid := file_id f in
  let sname := file_name f in
  try_except
    (manifest_json ← get_manifest_content sid script_service;
     match manifest_json with
     | Some json =>
         if nonempty manifest_json then
           w ← get_world;
           mret (manifest_rows ++
                 [{| script_id := sid; script_name := sname;
                     owner_email := user_email; manifest_content := json;
                     extraction_date := utcnow_isoformat E (clock w) |}])
         else mret manifest_rows
     | None => mret manifest_rows
     end)
    (λ _, mret manifest_rows).

Fixpoint scan_files (user_email : string) (script_service : Service)
    (files : list DriveFile) (manifest_rows : list Row) : M (list Row) :=
  match files with
  | [] => mret manifest_rows
  | f :: files' =>
      rows ← scan_file user_email script_service f manifest_rows;
      scan_files user_email script_service files' rows
  end.

(** The [while True] loop over the pages of the file listing, with the
    local list [manifest_rows] threaded and the exception that ended the
    loop, if any. *)
Fixpoint files_pages (user_email : string) (script_service : Service)
    (pages : listing DriveFile) (manifest_rows : list Row)
    : M (list Row * option exn) :=
  request (EvFilesList user_email);;
  match pages with
  | FailedPage e => mret (manifest_rows, Some e)
  | LastPage files =>
      rows ← scan_files user_email script_service files manifest_rows;
      mret (rows, None)
  | NextPage files rest =>
      rows ← scan_files user_email script_service files manifest_rows;
      files_pages user_email script_service rest rows
  end.

Definition scan_user_for_manifests (user_email : string) : M (list Row) :=
  drive_service ← get_impersonated_service "drive" "v3" user_email;
  script_service ← get_impersonated_service "script" "v1" user_email;
  match drive_service, script_service with
  | Some _, Some script =>
      '(manifest_rows, failure) ← files_pages user_email script (files_listing E user_email) [];
      match failure with
      | None =>
          match manifest_rows with
          | [] => mret ()
          | _ => logger INFO (UserScanRetrieved (length manifest_rows) user_email)
          end
      | Some e => logger ERROR (ErrorScanningUser user_email e)
      end;;
      mret manifest_rows
  | _, _ =>
      logger WARNING (SkippingUser user_email);;
      mret []
  end.

(** ** Entry point (lines 253-283) *)

(** What one thread records over a stretch of its run. *)
Record Obs : Type := {
  obs_log : list (level * LogMsg);
  obs_trace : list Event;
  obs_sleeps : list Z
}.

Definition recorded (w : World) : Obs :=
  {| obs_log := log w; obs_trace := trace w; obs_sleeps := sleeps w |}.

(** The world of a thread that has recorded nothing yet. *)
Definition blank (w : World) : World :=
  mkWorld (clock w) [] [] [] (dataset w) (batcher w).

Definition thread_world (c : nat) : World :=
  mkWorld c [] [] [] ∅ {| table_id := ""; buffer := [] |}.

(** [executor.submit(scan_user_for_manifests, email)] for the [i]-th
    user: the scan runs on a thread of its own. *)
Definition submit (i : nat) (user_email : string) : result (list Row) * World :=
  scan_user_for_manifests user_email (thread_world (thread_clock E i)).

(** [as_completed] over [n] futures: each future once, by completion
    rank (submission order among equal ranks). *)
Definition completes_before (i j : nat) : Prop :=
  (completion_rank E i ≤ completion_rank E j)%nat.

Global Instance completes_before_dec i j : Decision (completes_before i j).
Proof. unfold completes_before. apply _. Defined.

Definition as_completed (n : nat) : list nat :=
  merge_sort completes_before (seq 0 n).

(** Body of the loop over [as_completed] for one future:
    [results = future.result(); bq_batcher.add(results)], with the
    handler that logs a worker exception. *)
Definition handle_future (email : string) (outcome : result (list Row)) : M unit :=
  try_except
    (results ← (λ w, (outcome, w));
     add cfg E results)
    (λ exc, logger ERROR (WorkerException email exc)).

(** The loop over [as_completed], run by the collecting thread on its
    own world; it yields, for each future taken, what the collecting
    thread recorded while handling it. *)
Fixpoint collect_results (done : list (nat * (string * result (list Row)))) (w : World)
    : World * list (nat * Obs) :=
  match done with
  | [] => (w, [])
  | (i, (email, outcome)) :: rest =>
      let w1 := (handle_future email outcome (blank w)).2 in
      ((collect_results rest w1).1, (i, recorded w1) :: (collect_results rest w1).2)
  end.

(** Number of scans that have recorded everything they had to. *)
Definition exhausted {X} (scans : list (list X)) : nat :=
  length (filter (λ s, length s = 0%nat) scans).

(** One interleaving of what the threads recorded.  [scans] holds what
    each scan still has to record, [main] the stretches of the collecting
    thread, each with the index of the future it handles.  A pick is
    obeyed only when the pool allows it: the [i]-th scan runs only once
    fewer than [limit] earlier ones are unfinished, and the collector
    handles a future only when its scan has finished.  When the picks
    run out the scans finish one after the other, then the collector. *)
Fixpoint interleave {X} (limit : nat) (picks : list nat)
    (scans : list (list X)) (main : list (nat * list X)) : list X :=
  match picks with
  | [] => concat scans ++ concat (snd <$> main)
  | O :: picks' =>
      match main with
      | [] => interleave limit picks' scans main
      | (i, seg) :: rest =>
          match scans !! i with
          | Some (_ :: _) => interleave limit picks' scans main
          | _ =>
              match seg with
              | [] => interleave limit picks' scans rest
              | x :: seg' => x :: interleave limit picks' scans ((i, seg') :: rest)
              end
          end
      end
  | S i :: picks' =>
      match scans !! i with
      | Some (x :: xs) =>
          if decide (i < limit + exhausted scans)%nat
          then x :: interleave limit picks' (<[i := xs]> scans) main
          else interleave limit picks' scans main
      | _ => interleave limit picks' scans main
      end
  end.

(** The [with ThreadPoolExecutor(max_workers=MAX_WORKERS)] block: one
    scan submitted per user, the results collected as they complete. *)
Definition run_pool (emails : list string) : M unit := λ w,
  let futures := imap (λ i email, (email, submit i email)) emails in
  let done :=
    omap (λ i, (λ f, (i, (f.1, f.2.1))) <$> futures !! i) (as_completed (length emails)) in
  let collected := collect_results done w in
  let scans := (λ f, recorded f.2.2) <$> futures in
  let main := collected.2 in
  (Ret (),
   mkWorld (clock collected.1)
     (log w ++ interleave (length emails) (log_schedule E)
                 (obs_log <$> scans) ((λ s, (s.1, obs_log s.2)) <$> main))
     (trace w ++ interleave MAX_WORKERS (trace_schedule E)
                   (obs_trace <$> scans) ((λ s, (s.1, obs_trace s.2)) <$> main))
     (sleeps w ++ interleave (length emails) (sleep_schedule E)
                    (obs_sleeps <$> scans) ((λ s, (s.1, obs_sleeps s.2)) <$> main))
     (dataset collected.1) (batcher collected.1)).

Definition main_handler : M (string * Z) :=
  try_except
    (logger INFO StartingPipeline;;
     dir_service ← get_impersonated_service "admin" "directory_v1" (fmt (ADMIN_USER_EMAIL cfg));
     match dir_service with
     | None => mret ("Admin Auth Failure", 500)
     | Some dir =>
         BigQueryBatcher (fmt (MANIFEST_TABLE_ID cfg));;
         all_users ← get_all_domain_users dir;
         match all_users with
         | [] => logger WARNING NoUsersFound;; mret ("No Users Found", 200)
         | _ =>
             run_pool (primaryEmail <$> all_users);;
             flush cfg E;;
             logger INFO PipelineCompleted;;
             mret ("Success", 200)
         end
     end)
    (λ e,
       logger CRITICAL (PipelineCriticalFailure e);;
       mret ("Failed: " +:+ str_exn e, 500)).

End Scan.

(** ** Notions used in the statements, sample worlds and environments *)

Definition world0 : World :=
  mkWorld 0 [] [] [] ∅ {| table_id := ""; buffer := [] |}.

(** An environment in which nothing fails and nothing is listed. *)
Definition quiet : Env :=
  {| auth := λ _ _ _, None;
     users_listing := LastPage [];
     files_listing := λ _, LastPage [];
     content := λ _ _ _, Ret {| resp_files := None |};
     bq_fault := λ _ _, None;
     now_timestamp := λ _, 1700000000;
     getpid := 4242;
     utcnow_isoformat := λ _, "2024-01-01T00:00:00";
     thread_clock := λ _, 0%nat;
     completion_rank := λ i, i;
     trace_schedule := [];
     log_schedule := [];
     sleep_schedule := [] |}.

Definition with_content (c : nat → string → string → result ContentResp) (E : Env) : Env :=
  {| auth := auth E; users_listing := users_listing E; files_listing := files_listing E;
     content := c; bq_fault := bq_fault E; now_timestamp := now_timestamp E;
     getpid := getpid E; utcnow_isoformat := utcnow_isoformat E;
     thread_clock := thread_clock E; completion_rank := completion_rank E;
     trace_schedule := trace_schedule E; log_schedule := log_schedule E;
     sleep_schedule := sleep_schedule E |}.

Definition with_bq_fault (b : nat → Event → option exn) (E : Env) : Env :=
  {| auth := auth E; users_listing := users_listing E; files_listing := files_listing E;
     content := content E; bq_fault := b; now_timestamp := now_timestamp E;
     getpid := getpid E; utcnow_isoformat := utcnow_isoformat E;
     thread_clock := thread_clock E; completion_rank := completion_rank E;
     trace_schedule := trace_schedule E; log_schedule := log_schedule E;
     sleep_schedule := sleep_schedule E |}.

Definition with_auth (a : nat → string → string → option exn) (E : Env) : Env :=
  {| auth := a; users_listing := users_listing E; files_listing := files_listing E;
     content := content E; bq_fault := bq_fault E; now_timestamp := now_timestamp E;
     getpid := getpid E; utcnow_isoformat := utcnow_isoformat E;
     thread_clock := thread_clock E; completion_rank := completion_rank E;
     trace_schedule := trace_schedule E; log_schedule := log_schedule E;
     sleep_schedule := sleep_schedule E |}.

Definition with_users (l : listing User) (E : Env) : Env :=
  {| auth := auth E; users_listing := l; files_listing := files_listing E;
     content := content E; bq_fault := bq_fault E; now_timestamp := now_timestamp E;
     getpid := getpid E; utcnow_isoformat := utcnow_isoformat E;
     thread_clock := thread_clock E; completion_rank := completion_rank E;
     trace_schedule := trace_schedule E; log_schedule := log_schedule E;
     sleep_schedule := sleep_schedule E |}.

Definition with_files (l : string → listing DriveFile) (E : Env) : Env :=
  {| auth := auth E; users_listing := users_listing E; files_listing := l;
     content := content E; bq_fault := bq_fault E; now_timestamp := now_timestamp E;
     getpid := getpid E; utcnow_isoformat := utcnow_isoformat E;
     thread_clock := thread_clock E; completion_rank := completion_rank E;
     trace_schedule := trace_schedule E; log_schedule := log_schedule E;
     sleep_schedule := sleep_schedule E |}.

Definition settings0 : Settings :=
  {| PROJECT_ID := Some "proj"; DATASET_ID := Some "audit";
     MANIFEST_TABLE_ID := Some "manifest_audit_log";
     ADMIN_USER_EMAIL := Some "admin@example.com";
     SERVICE_ACCOUNT_EMAIL := Some "sa@proj.iam.gserviceaccount.com" |}.

(** [os.environ] with every variable set except the table name. *)
Definition environ_no_table : gmap string string :=
  <["PROJECT_ID" := "proj"]>
  (<["DATASET_ID" := "proj.audit"]>
  (<["ADMIN_USER_EMAIL" := "admin@example.com"]>
  (<["SERVICE_ACCOUNT_EMAIL" := "sa@proj.iam.gserviceaccount.com"]> ∅))).

(** [os.environ] without the admin identity. *)
Definition environ_no_admin : gmap string string :=
  <["PROJECT_ID" := "proj"]>
  (<["DATASET_ID" := "audit"]>
  (<["SERVICE_ACCOUNT_EMAIL" := "sa@proj.iam.gserviceaccount.com"]> ∅)).

Definition client_ok : option string → option exn := λ _, None.

Definition required_missing (environ : gmap string string) : Prop :=
  truthy (environ !! "PROJECT_ID") = false ∨
  truthy (environ !! "ADMIN_USER_EMAIL") = false ∨
  truthy (environ !! "SERVICE_ACCOUNT_EMAIL") = false.

Definition slept (k : nat) (w : World) : World :=
  (sleep (wait_exponential 1 2 10 k) w).2.

Definition server_busy : Env :=
  with_content (λ _ _ _, Raise (HttpError 503)) quiet.

Definition script_svc : Service := {| svc_api := "script"; svc_subject := "a@example.com" |}.

Definition bad_request : Env :=
  with_content (λ _ _ _, Raise (HttpError 400)) quiet.

Definition empty_manifest_file : ScriptFile :=
  {| sf_name := Some "appsscript"; sf_type := Some "JSON"; sf_source := Some "" |}.

Definition code_file : ScriptFile :=
  {| sf_name := Some "Code"; sf_type := Some "SERVER_JS"; sf_source := Some "function f() {}" |}.

Definition empty_manifest_env : Env :=
  with_content (λ _ _ _, Ret {| resp_files := Some [code_file; empty_manifest_file] |}) quiet.

Definition drive_file1 : DriveFile := {| file_id := "s1"; file_name := "Script one" |}.

(** Entries into the sink recorded in a trace, with their arguments. *)
Definition sink_calls (tr : list Event) : list (string * list Row) :=
  omap (λ ev, match ev with EvSink t rows => Some (t, rows) | _ => None end) tr.

(** Tables whose deletion was requested in a trace. *)
Definition deleted_tables (tr : list Event) : list string :=
  omap (λ ev, match ev with EvDeleteTable t => Some t | _ => None end) tr.

(** BigQuery requests (of any kind) recorded in a trace. *)
Definition is_store_request (ev : Event) : bool :=
  match ev with
  | EvGetTable _ | EvLoad _ _ | EvMerge _ _ | EvDeleteTable _ => true
  | _ => false
  end.

Definition store_requests (tr : list Event) : list Event :=
  filter (λ ev, is_store_request ev = true) tr.

Definition unavailable : exn := OtherException "503 Service Unavailable".

(** An environment in which every [delete_table] request fails. *)
Definition delete_fails : Env :=
  with_bq_fault (λ _ ev, match ev with EvDeleteTable _ => Some unavailable | _ => None end) quiet.

Definition row1 : Row :=
  {| script_id := "s1"; script_name := "Script one"; owner_email := "a@example.com";
     manifest_content := "{}"; extraction_date := "2024-01-01T00:00:00" |}.

Definition world_with_target : World :=
  mkWorld 0 [] [] [] {[ "manifest_audit_log" := [] ]}
    {| table_id := "manifest_audit_log"; buffer := [] |}.

(** The world with [self.buffer] replaced. *)
Definition with_buffer (b : list Row) (w : World) : World :=
  (set_batcher {| table_id := table_id (batcher w); buffer := b |} w).2.


(** What a listing holds: the items of the pages that were served, in
    order, and the exception that ended it, if any. *)
Fixpoint pages_items {A} (l : listing A) : list A * option exn :=
  match l with
  | LastPage items => (items, None)
  | NextPage items rest => (items ++ (pages_items rest).1, (pages_items rest).2)
  | FailedPage e => ([], Some e)
  end.

Fixpoint pages_count {A} (l : listing A) : nat :=
  match l with
  | LastPage _ | FailedPage _ => 1
  | NextPage _ rest => S (pages_count rest)
  end.

Definition active (u : User) : Prop := suspended u = false.

(** The world after [n] further requests [ev] and nothing else. *)
Definition after_requests (n : nat) (ev : Event) (w : World) : World :=
  mkWorld (n + clock w) (log w) (trace w ++ replicate n ev) (sleeps w) (dataset w) (batcher w).

(** The world in which the page loop of a user's scan starts, when both
    handles were acquired. *)
Definition after_handles (email : string) (w : World) : World :=
  (request (EvAuth "script" "v1" email) (request (EvAuth "drive" "v3" email) w).2).2.

Definition script_service_of (email : string) : Service :=
  {| svc_api := "script"; svc_subject := email |}.

Definition manifest_file : ScriptFile :=
  {| sf_name := Some "appsscript"; sf_type := Some "JSON"; sf_source := Some "{}" |}.

(** One user whose first page lists one script with a manifest and
    whose second page request fails. *)
Definition second_page_fails : Env :=
  with_files (λ _, NextPage [drive_file1] (FailedPage (HttpError 500)))
    (with_content (λ _ _ _, Ret {| resp_files := Some [manifest_file] |}) quiet).

Definition directory_fails : Env :=
  with_users (NextPage [{| primaryEmail := "a@example.com"; suspended := false |}]
                (FailedPage (HttpError 500))) quiet.

Definition admin_svc : Service := {| svc_api := "admin"; svc_subject := "admin@example.com" |}.

(** One user with one script, served by a content service that always
    answers 503. *)
Definition busy_scan : Env := with_files (λ _, LastPage [drive_file1]) server_busy.

Definition no_drive_handle : Env :=
  with_auth (λ _ api _, if decide (api = "drive") then Some (OtherException "invalid_grant")
                        else None) quiet.

(** The users [get_all_domain_users] hands back for a listing. *)
Definition listed_users (l : listing User) : list User :=
  match (pages_items l).2 with
  | None => filter active (pages_items l).1
  | Some _ => []
  end.

Definition admin_of (cfg : Settings) : string := fmt (ADMIN_USER_EMAIL cfg).

(** The world in which the directory is listed, when the admin handle
    was acquired. *)
Definition after_admin_handle (cfg : Settings) (w : World) : World :=
  (BigQueryBatcher (fmt (MANIFEST_TABLE_ID cfg))
     (request (EvAuth "admin" "directory_v1" (admin_of cfg))
        (logger INFO StartingPipeline w).2).2).2.

Definition admin_rejected : Env :=
  with_auth (λ _ _ _, Some (OtherException "invalid_grant")) quiet.

(** The script_ids of a table, row by row. *)
Definition keys (l : list Row) : list string := script_id <$> l.

Definition row2 : Row :=
  {| script_id := "s2"; script_name := "Script two"; owner_email := "b@example.com";
     manifest_content := "{}"; extraction_date := "2024-01-01T00:00:00" |}.

Definition row1_later : Row :=
  {| script_id := "s1"; script_name := "Script one, renamed"; owner_email := "a@example.com";
     manifest_content := "{timeZone: UTC}"; extraction_date := "2024-02-01T00:00:00" |}.

Definition drive_file2 : DriveFile := {| file_id := "s2"; file_name := "Script two" |}.

(** Two active users and a suspended one; the first user owns a script
    with a manifest, the second a script without one. *)
Definition two_users : Env :=
  with_users
    (NextPage [{| primaryEmail := "a@example.com"; suspended := false |};
               {| primaryEmail := "c@example.com"; suspended := true |}]
       (LastPage [{| primaryEmail := "b@example.com"; suspended := false |}]))
    (with_files
       (λ email, if decide (email = "a@example.com") then LastPage [drive_file1]
                 else LastPage [drive_file2])
       (with_content
          (λ _ _ sid, if decide (sid = "s1")
                      then Ret {| resp_files := Some [code_file; manifest_file] |}
                      else Ret {| resp_files := Some [code_file] |})
          quiet)).

(** The identities for which a handle was requested in a trace. *)
Definition auth_subjects (tr : list Event) : list string :=
  omap (λ ev, match ev with EvAuth _ _ subject => Some subject | _ => None end) tr.

Definition two_users_delete_fails : Env :=
  with_bq_fault (bq_fault delete_fails) two_users.

(** The same users, with the two scans sending their requests in turn
    and the second scan completing first. *)
Definition with_schedule (rank : nat → nat) (picks : list nat) (E : Env) : Env :=
  {| auth := auth E; users_listing := users_listing E; files_listing := files_listing E;
     content := content E; bq_fault := bq_fault E; now_timestamp := now_timestamp E;
     getpid := getpid E; utcnow_isoformat := utcnow_isoformat E;
     thread_clock := thread_clock E; completion_rank := rank;
     trace_schedule := picks; log_schedule := log_schedule E;
     sleep_schedule := sleep_schedule E |}.

Definition two_users_interleaved : Env :=
  with_schedule (λ i, 1 - i)%nat [1; 2; 1; 2; 2; 1; 2; 1; 0]%nat two_users.

(** A content service that answers every request with TooManyRequests. *)
Definition rate_limited : Env :=
  with_content (λ _ _ _, Raise TooManyRequests) quiet.

(** [os.environ] without the dataset identifier. *)
Definition environ_no_dataset : gmap string string :=
  <["PROJECT_ID" := "proj"]>
  (<["ADMIN_USER_EMAIL" := "admin@example.com"]>
  (<["SERVICE_ACCOUNT_EMAIL" := "sa@proj.iam.gserviceaccount.com"]> ∅)).

(** Requests a scan sends once it holds its handles. *)
Definition is_scan_request (ev : Event) : bool :=
  match ev with
  | EvFilesList _ | EvGetContent _ _ => true
  | _ => false
  end.

(** Identity and display name of a listed file, and of a row. *)
Definition file_key (f : DriveFile) : string * string := (file_id f, file_name f).

Definition row_key (r : Row) : string * string := (script_id r, script_name r).

(** A row a scan of [email] may emit. *)
Definition emitted_by (email : string) (r : Row) : Prop :=
  owner_email r = email ∧ manifest_content r ≠ "".

(** What a scan of [files] for [email], started with [rows] in world [w],
    leaves behind: the rows it added, in listing order, and the requests
    it sent. *)
Definition scan_post (email : string) (files : list DriveFile) (rows : list Row)
    (w : World) (out : result (list Row) * World) : Prop :=
  ∃ new evs,
    out.1 = Ret (rows ++ new) ∧
    Forall (emitted_by email) new ∧
    (row_key <$> new) `sublist_of` (file_key <$> files) ∧
    trace out.2 = trace w ++ evs ∧
    Forall (λ ev, is_scan_request ev = true) evs ∧
    dataset out.2 = dataset w ∧ batcher out.2 = batcher w.

(** The exception that ends the [try] block of the sink on a non-empty
    batch, if any: the first failure among the schema lookup, the load
    and the merge. *)
Definition merge_failure (cfg : Settings) (E : Env) (tid : string) (rows : list Row)
    (w : World) : option exn :=
  let temp := temp_table_name E tid (clock w) in
  match bq_fault E (clock w) (EvGetTable tid), dataset w !! tid with
  | Some e, _ => Some e
  | None, None => Some (NotFound tid)
  | None, Some tgt =>
      match bq_fault E (S (clock w)) (EvLoad temp rows) with
      | Some e => Some e
      | None =>
          match bq_fault E (S (S (clock w)))
                  (EvMerge (qualified cfg tid) (qualified cfg temp)) with
          | Some e => Some e
          | None =>
              match merge_statement tgt rows with
              | Some _ => None
              | None => Some MergeRejected
              end
          end
      end
  end.

(** The log record the sink writes for a non-empty batch. *)
Definition sink_record (cfg : Settings) (E : Env) (tid : string) (rows : list Row)
    (w : World) : level * LogMsg :=
  match merge_failure cfg E tid rows w with
  | None => (INFO, Merged (length rows) tid)
  | Some e => (ERROR, MergeFailed tid e)
  end.

Definition ValueError_dataset : exn := OtherException "Pass a string for dataset_id".

(** An environment in which every MERGE request fails. *)
Definition merge_fails : Env :=
  with_bq_fault (λ _ ev, match ev with EvMerge _ _ => Some unavailable | _ => None end) quiet.

(** A world with the target table and a stale table under the name the
    next flush will use for its staging table. *)
Definition world_with_stale_staging : World :=
  mkWorld 0 [] [] []
    (<["manifest_audit_log_staging_1700000000_4242" := [row2]]>
       {[ "manifest_audit_log" := [] ]})
    {| table_id := "manifest_audit_log"; buffer := [] |}.

(** Settings as start-up leaves them when DATASET_ID is not set. *)
Definition settings_no_dataset : Settings :=
  {| PROJECT_ID := Some "proj"; DATASET_ID := None;
     MANIFEST_TABLE_ID := Some "manifest_audit_log";
     ADMIN_USER_EMAIL := Some "admin@example.com";
     SERVICE_ACCOUNT_EMAIL := Some "sa@proj.iam.gserviceaccount.com" |}.

(** A world whose log already ends with the success record of an
    earlier flush of one row. *)
Definition world_after_success : World :=
  (logger INFO (Merged 1 "manifest_audit_log") world_with_target).2.

(** The emails for which the entry point submits a scan, in order. *)
Definition listed_emails (E : Env) : list string :=
  primaryEmail <$> listed_users (users_listing E).

(** The world in which the trailing flush runs. *)
Definition before_final_flush (cfg : Settings) (E : Env) (w : World) : World :=
  (run_pool cfg E (listed_emails E)
     (get_all_domain_users E {| svc_api := "admin"; svc_subject := admin_of cfg |}
        (after_admin_handle cfg w)).2).2.

(** The warning the extractor writes for an HTTP failure, if any. *)
Definition warning_for (sid : string) (status : Z) : list (level * LogMsg) :=
  if decide (status ∈ [403; 404])
  then [(WARNING, AccessFoundError sid (HttpError status))]
  else [].

(** The content service answers the requests numbered [c], [c + 1], ...
    for script [sid] with the HTTP failures [statuses]. *)
Definition http_failures (E : Env) (subject sid : string) (c : nat) (statuses : list Z) : Prop :=
  ∀ k status, statuses !! k = Some status →
              content E (k + c) subject sid = Raise (HttpError status).

(** The world after one attempt per status has failed, with the warnings
    these attempts wrote and [pauses] back-off sleeps. *)
Definition after_http_failures (subject sid : string) (statuses : list Z) (pauses : nat)
    (w : World) : World :=
  mkWorld (length statuses + clock w)
    (log w ++ (statuses ≫= warning_for sid))
    (trace w ++ replicate (length statuses) (EvGetContent subject sid))
    (sleeps w ++ (wait_exponential 1 2 10 <$> seq 1 pauses))
    (dataset w) (batcher w).

(** Content services: one that always answers 403; one that answers 403,
    then 500, then a project with a manifest; one that answers 404 and
    then a project without a manifest; one that answers 503 and then
    times out. *)
Definition forbidden : Env :=
  with_content (λ _ _ _, Raise (HttpError 403)) quiet.

Definition flaky : Env :=
  with_content
    (λ t _ _, match t with
              | 0%nat => Raise (HttpError 403)
              | 1%nat => Raise (HttpError 500)
              | _ => Ret {| resp_files := Some [code_file; manifest_file] |}
              end) quiet.

Definition not_found_then_plain : Env :=
  with_content
    (λ t _ _, match t with
              | 0%nat => Raise (HttpError 404)
              | _ => Ret {| resp_files := Some [code_file] |}
              end) quiet.

Definition busy_then_timeout : Env :=
  with_content
    (λ t _ _, match t with
              | 0%nat => Raise (HttpError 503)
              | _ => Raise (OtherException "timed out")
              end) quiet.

(** A store client constructor that raises. *)
Definition client_fails : option string → option exn :=
  λ _, Some (OtherException "DefaultCredentialsError").

(** * Properties *)

(** ** The model on sample runs *)

Example split_dot_last_qualified : split_dot_last "proj.audit" = "audit".
Proof. reflexivity. Qed.

Example sanitize_plain : sanitize (Some "audit") = Some "audit".
Proof. reflexivity. Qed.

Example startup_sanitizes_dataset :
  ∃ s, (module_init environ_no_table client_ok).1 = Loaded s ∧ DATASET_ID s = Some "audit".
Proof. eexists. split; [by vm_compute|by vm_compute]. Qed.

(** The check of line 47 does not look at the dataset identifier. *)
Example startup_without_dataset :
  ∃ s, (module_init environ_no_dataset client_ok).1 = Loaded s ∧ DATASET_ID s = None.
Proof. eexists. split; [by vm_compute|by vm_compute]. Qed.

(** A [TooManyRequests] raised by the request never reaches the
    decorator: the body's last handler turns it into [None]. *)
Example rate_limit_is_swallowed :
  retry_loop 3 1 (get_manifest_content_body rate_limited "s1" script_svc) world0
  = (Ret None,
     mkWorld 1 [(ERROR, UnknownManifestError "s1" TooManyRequests)]
       [EvGetContent "a@example.com" "s1"] [] ∅ {| table_id := ""; buffer := [] |},
     1%nat).
Proof. by vm_compute. Qed.

Example wait_exponential_values :
  wait_exponential 1 2 10 <$> [1; 2; 3; 4; 5]%nat = [2; 2; 4; 8; 10].
Proof. reflexivity. Qed.

Example temp_table_name_sample :
  temp_table_name quiet "manifest_audit_log" 0 = "manifest_audit_log_staging_1700000000_4242".
Proof. by vm_compute. Qed.

(** Two active users, one manifest: the run succeeds, one row is merged,
    the suspended user is not scanned and no staging table is left. *)
Example two_users_run :
  let out := main_handler settings0 two_users world_with_target in
  out.1 = Ret ("Success", 200) ∧
  dataset out.2 = {[ "manifest_audit_log" := [row1] ]} ∧
  sink_calls (trace out.2) = [("manifest_audit_log", [row1])] ∧
  auth_subjects (trace out.2)
  = ["admin@example.com"; "a@example.com"; "a@example.com"; "b@example.com"; "b@example.com"].
Proof. by vm_compute. Qed.

(** The same run when the delete request fails: the trailing flush
    raises and the entry point reports the failure. *)
Example two_users_run_delete_fails :
  (main_handler settings0 two_users_delete_fails world_with_target).1
  = Ret ("Failed: 503 Service Unavailable", 500).
Proof. by vm_compute. Qed.

(** ** Start-up *)

(** C9, as stated, fails: with the table name missing from the
    environment (and everything else set) start-up does not exit; the
    table name takes its default. *)
Lemma startup_missing_table_name_no_exit :
  environ_no_table !! "MANIFEST_TABLE_ID" = None ∧
  ∀ code evs, module_init environ_no_table client_ok ≠ (SysExit code, evs).
Proof. split; [by vm_compute|]. intros code evs. by vm_compute. Qed.

(** C9, amended: when the project identifier, the admin identity or the
    service identity is missing or empty, start-up exits with code 1
    after the critical log record and before the store client is even
    constructed; a missing table name is not fatal, the table name is
    then [manifest_audit_log]. *)
Theorem startup_required_settings (environ : gmap string string)
    (client_init : option string → option exn) :
  (required_missing environ →
   module_init environ client_init = (SysExit 1, [CriticalMissingEnv])) ∧
  (¬ required_missing environ →
   environ !! "MANIFEST_TABLE_ID" = None →
   client_init (environ !! "PROJECT_ID") = None →
   ∃ s, module_init environ client_init = (Loaded s, [ClientInit (environ !! "PROJECT_ID")]) ∧
        MANIFEST_TABLE_ID s = Some "manifest_audit_log").
Proof.
  unfold required_missing, module_init. split.
  - intros Hmiss.
    assert (forallb truthy [environ !! "PROJECT_ID"; environ !! "ADMIN_USER_EMAIL";
                            environ !! "SERVICE_ACCOUNT_EMAIL"] = false) as ->; [|done].
    simpl. destruct Hmiss as [-> | [-> | ->]]; [done | by rewrite andb_false_r | ].
    by rewrite !andb_false_r.
  - intros Hall Htab Hci. rewrite Htab, Hci. simpl.
    destruct (truthy (environ !! "PROJECT_ID")) eqn:Hp; [|tauto].
    destruct (truthy (environ !! "ADMIN_USER_EMAIL")) eqn:Ha; [|tauto].
    destruct (truthy (environ !! "SERVICE_ACCOUNT_EMAIL")) eqn:Hs; [|tauto].
    simpl. eexists; split; [reflexivity|]. by vm_compute.
Qed.

Lemma startup_required_settings_witness :
  module_init environ_no_admin client_ok = (SysExit 1, [CriticalMissingEnv]) ∧
  ∃ s, module_init environ_no_table client_ok
         = (Loaded s, [ClientInit (environ_no_table !! "PROJECT_ID")]) ∧
       MANIFEST_TABLE_ID s = Some "manifest_audit_log".
Proof.
  split.
  - apply (proj1 (startup_required_settings environ_no_admin client_ok)).
    right; left. by vm_compute.
  - apply (proj2 (startup_required_settings environ_no_table client_ok)).
    + intros [H | [H | H]]; vm_compute in H; discriminate.
    + by vm_compute.
    + reflexivity.
Defined.

(** ** Retrying remote call *)

Ltac unfold_monad :=
  unfold mbind, M_bind, mret, M_ret, raise, try_except, try_finally,
    get_world, logger, mark, request, sleep, set_dataset, set_batcher in *.

Lemma wait_exponential_bounds (k : nat) : 2 ≤ wait_exponential 1 2 10 k ≤ 10.
Proof. unfold wait_exponential. lia. Qed.

Lemma retry_loop_attempts {A} (f : M A) (budget n : nat) (w : World) :
  (n ≤ 3)%nat → (n ≤ (retry_loop budget n f w).2 ≤ 3)%nat.
Proof.
  revert n w. induction budget as [|b IH]; intros n w Hn; simpl.
  - destruct (f w) as [[a|e] w1]; simpl; [lia|].
    destruct (retry_if_exception_type e); simpl; [|lia].
    destruct (stop_after_attempt 3 n); simpl; lia.
  - destruct (f w) as [[a|e] w1]; simpl; [lia|].
    destruct (retry_if_exception_type e); simpl; [|lia].
    unfold stop_after_attempt. case_bool_decide; simpl; [lia|].
    match goal with
    | |- (_ ≤ (retry_loop b (S n) f ?w').2 ≤ _)%nat =>
        pose proof (IH (S n) w' ltac:(lia)); lia
    end.
Qed.

(** C3, as stated, fails on its last clause: when all three attempts
    fail with a retryable error, the caller does not receive that error
    but a [RetryError] around it. *)
Lemma retry_exhaustion_not_unmodified :
  (get_manifest_content server_busy "s1" script_svc world0).1
    = Raise (RetryError (HttpError 503)) ∧
  (get_manifest_content server_busy "s1" script_svc world0).1
    ≠ Raise (HttpError 503).
Proof. split; [by vm_compute | by vm_compute]. Qed.

(** C3, amended: the decorated call invokes the operation between one
    and three times, sleeping 2 seconds before the second and before the
    third attempt (the wait always lies between 2 and 10); a new attempt
    is made only after a [TooManyRequests] or [HttpError] failure; at the
    first, second or third attempt a result, or an error of another
    type, ends the call at once and reaches the caller unchanged; three
    retryable failures end the call with [RetryError] around the third
    one. *)
Theorem retry_policy {A} (f : M A) (w : World) :
  (∀ k, 2 ≤ wait_exponential 1 2 10 k ≤ 10) ∧
  (1 ≤ (retry_loop 3 1 f w).2 ≤ 3)%nat ∧
  ((2 ≤ (retry_loop 3 1 f w).2)%nat →
   ∃ e w1, f w = (Raise e, w1) ∧ retry_if_exception_type e = true) ∧
  (∀ a w1, f w = (Ret a, w1) → retry_loop 3 1 f w = (Ret a, w1, 1%nat)) ∧
  (∀ e w1, f w = (Raise e, w1) → retry_if_exception_type e = false →
   retry_loop 3 1 f w = (Raise e, w1, 1%nat)) ∧
  (∀ e1 w1 e2 w2 r w3,
     f w = (Raise e1, w1) → retry_if_exception_type e1 = true →
     f (slept 1 w1) = (Raise e2, w2) → retry_if_exception_type e2 = true →
     f (slept 2 w2) = (r, w3) →
     retry_loop 3 1 f w =
       (match r with
        | Ret a => Ret a
        | Raise e3 => if retry_if_exception_type e3 then Raise (RetryError e3) else Raise e3
        end, w3, 3%nat)) ∧
  (∀ e1 w1 r w2,
     f w = (Raise e1, w1) → retry_if_exception_type e1 = true →
     f (slept 1 w1) = (r, w2) →
     (∀ e2, r = Raise e2 → retry_if_exception_type e2 = false) →
     retry_loop 3 1 f w = (r, w2, 2%nat)) ∧
  (∀ w0, sleeps (slept 1 w0) = sleeps w0 ++ [2] ∧ sleeps (slept 2 w0) = sleeps w0 ++ [2]) ∧
  retry f w = (retry_loop 3 1 f w).1.
Proof.
  split; [apply wait_exponential_bounds|].
  split; [apply retry_loop_attempts; lia|].
  split_and!; [| | | | |done|done].
  - simpl. destruct (f w) as [[a|e] w1]; simpl; [lia|].
    destruct (retry_if_exception_type e) eqn:He; simpl; [eauto|lia].
  - intros a w1 Hf. simpl. by rewrite Hf.
  - intros e w1 Hf He. simpl. by rewrite Hf, He.
  - intros e1 w1 e2 w2 r w3 H1 He1 H2 He2 H3. unfold slept in *.
    cbn [retry_loop]. rewrite H1, He1.
    change (stop_after_attempt 3 1) with false. cbn iota. rewrite H2, He2.
    change (stop_after_attempt 3 2) with false. cbn iota. rewrite H3.
    destruct r as [a|e3]; [done|]. by destruct (retry_if_exception_type e3).
  - intros e1 w1 r w2 H1 He1 H2 Hr. unfold slept in *.
    cbn [retry_loop]. rewrite H1, He1.
    change (stop_after_attempt 3 1) with false. cbn iota. rewrite H2.
    destruct r as [a|e2]; [done|]. by rewrite (Hr e2 eq_refl).
Qed.

Lemma retry_policy_witness :
  retry_loop 3 1 (get_manifest_content_body server_busy "s1" script_svc) world0
  = (Raise (RetryError (HttpError 503)),
     mkWorld 3 [] (replicate 3 (EvGetContent "a@example.com" "s1")) [2; 2] ∅
       {| table_id := ""; buffer := [] |}, 3%nat) ∧
  retry_loop 3 1 (get_manifest_content_body flaky "s1" script_svc) world0
  = (Ret (Some "{}"),
     mkWorld 3 [(WARNING, AccessFoundError "s1" (HttpError 403))]
       (replicate 3 (EvGetContent "a@example.com" "s1")) [2; 2] ∅
       {| table_id := ""; buffer := [] |}, 3%nat) ∧
  retry_loop 3 1 (get_manifest_content_body not_found_then_plain "s1" script_svc) world0
  = (Ret None,
     mkWorld 2 [(WARNING, AccessFoundError "s1" (HttpError 404))]
       (replicate 2 (EvGetContent "a@example.com" "s1")) [2] ∅
       {| table_id := ""; buffer := [] |}, 2%nat).
Proof.
  split_and!.
  - pose proof (retry_policy (get_manifest_content_body server_busy "s1" script_svc) world0)
      as (_ & _ & _ & _ & _ & H & _).
    by rewrite (H (HttpError 503) _ (HttpError 503) _ (Raise (HttpError 503)) _
                  eq_refl eq_refl eq_refl eq_refl eq_refl).
  - pose proof (retry_policy (get_manifest_content_body flaky "s1" script_svc) world0)
      as (_ & _ & _ & _ & _ & H & _).
    by rewrite (H (HttpError 403) _ (HttpError 500) _ (Ret (Some "{}")) _
                  eq_refl eq_refl eq_refl eq_refl eq_refl).
  - pose proof (retry_policy (get_manifest_content_body not_found_then_plain "s1" script_svc)
                  world0) as (_ & _ & _ & _ & _ & _ & H & _).
    rewrite (H (HttpError 404) _ (Ret None) _ eq_refl eq_refl eq_refl); [done|].
    intros e2 He2. discriminate He2.
Defined.

(** ** Manifest extractor *)

Lemma get_manifest_content_body_run (E : Env) (sid : string) (svc : Service) (w : World) :
  let ev := EvGetContent (svc_subject svc) sid in
  get_manifest_content_body E sid svc w =
    match content E (clock w) (svc_subject svc) sid with
    | Ret resp => (Ret (manifest_of (default [] (resp_files resp))), (request ev w).2)
    | Raise (HttpError status) =>
        (Raise (HttpError status),
         mkWorld (S (clock w)) (log w ++ warning_for sid status) (trace w ++ [ev])
           (sleeps w) (dataset w) (batcher w))
    | Raise e => (Ret None, (logger ERROR (UnknownManifestError sid e) (request ev w).2).2)
    end.
Proof.
  unfold get_manifest_content_body, getContent, warning_for. unfold_monad. simpl.
  destruct (content E (clock w) (svc_subject svc) sid) as [resp|[status| |msg|e]]; try done.
  destruct (decide (status ∈ [403; 404])); simpl; [done|by rewrite app_nil_r].
Qed.

Lemma manifest_of_none (files : list ScriptFile) :
  Forall (λ f, ¬ is_manifest f) files → manifest_of files = None.
Proof.
  intros Hnone. unfold manifest_of.
  destruct (list_find is_manifest files) as [[i f]|] eqn:Hfind; [|done].
  apply list_find_Some in Hfind as (Hi & Hf & _).
  rewrite Forall_forall in Hnone. exfalso. eapply Hnone; [|exact Hf].
  eapply list_elem_of_lookup_2; eauto.
Qed.

(** C6, as stated, fails on its last two clauses.  A 403 is not
    re-raised to the caller: the retry decorator makes three attempts,
    each logged with a warning, and the caller receives a [RetryError].
    An HTTP failure other than 403/404 (here 400) is not converted to
    absent: it is retried without a log record and ends in a
    [RetryError] as well. *)
Lemma other_http_failure_not_absent :
  (get_manifest_content forbidden "s1" script_svc world0).1
    = Raise (RetryError (HttpError 403)) ∧
  (get_manifest_content forbidden "s1" script_svc world0).1 ≠ Raise (HttpError 403) ∧
  log (get_manifest_content forbidden "s1" script_svc world0).2
    = replicate 3 (WARNING, AccessFoundError "s1" (HttpError 403)) ∧
  trace (get_manifest_content forbidden "s1" script_svc world0).2
    = replicate 3 (EvGetContent "a@example.com" "s1") ∧
  (get_manifest_content bad_request "s1" script_svc world0).1
    = Raise (RetryError (HttpError 400)) ∧
  (get_manifest_content bad_request "s1" script_svc world0).1 ≠ Ret None ∧
  log (get_manifest_content bad_request "s1" script_svc world0).2 = [].
Proof. by vm_compute. Qed.

(** C6, amended: the extractor, as its callers see it, makes up to
    three attempts.  An attempt answered with an HTTP failure is
    re-raised to the retry decorator, after a warning when the status is
    403 or 404 and silently otherwise, and is followed by a new attempt.
    When, after fewer than three such failures, the service answers with
    a file set, the extractor returns the source of its manifest, and
    absent when the set has no file named "appsscript" of type "JSON";
    when it fails with anything that is not an HTTP failure, the failure
    is logged as an error and converted to absent.  After three HTTP
    failures the caller receives a [RetryError] around the third one. *)
Theorem manifest_extractor_outcomes (E : Env) (sid : string) (svc : Service) (w : World) :
  let subject := svc_subject svc in
  let ev := EvGetContent subject sid in
  (∀ statuses resp,
     (length statuses < 3)%nat →
     http_failures E subject sid (clock w) statuses →
     content E (length statuses + clock w) subject sid = Ret resp →
     get_manifest_content E sid svc w =
       (Ret (manifest_of (default [] (resp_files resp))),
        (request ev (after_http_failures subject sid statuses (length statuses) w)).2) ∧
     (Forall (λ f, ¬ is_manifest f) (default [] (resp_files resp)) →
      (get_manifest_content E sid svc w).1 = Ret None)) ∧
  (∀ statuses e,
     (length statuses < 3)%nat →
     http_failures E subject sid (clock w) statuses →
     content E (length statuses + clock w) subject sid = Raise e →
     (∀ status, e ≠ HttpError status) →
     get_manifest_content E sid svc w =
       (Ret None,
        (logger ERROR (UnknownManifestError sid e)
           (request ev (after_http_failures subject sid statuses (length statuses) w)).2).2)) ∧
  (∀ s1 s2 s3,
     http_failures E subject sid (clock w) [s1; s2; s3] →
     get_manifest_content E sid svc w =
       (Raise (RetryError (HttpError s3)),
        after_http_failures subject sid [s1; s2; s3] 2 w)).
Proof.
  intros subject ev. subst subject ev.
  assert (∀ statuses r,
            (length statuses < 3)%nat →
            http_failures E (svc_subject svc) sid (clock w) statuses →
            (∀ status, content E (length statuses + clock w) (svc_subject svc) sid
                       ≠ Raise (HttpError status)) →
            get_manifest_content_body E sid svc
              (after_http_failures (svc_subject svc) sid statuses (length statuses) w)
            = r →
            get_manifest_content E sid svc w = r) as Hrun.
  { intros statuses r Hlen Hfail Hlast <-.
    unfold get_manifest_content, retry.
    destruct statuses as [|s1 [|s2 [|s3 rest]]]; [| | |simpl in Hlen; lia].
    - cbn [retry_loop]. rewrite !get_manifest_content_body_run.
      cbn [after_http_failures length clock Nat.add] in *.
      destruct (content E (clock w) (svc_subject svc) sid) as [resp|[status| |msg|e]] eqn:Hc.
      2: by destruct (Hlast status).
      all: unfold after_http_failures, request, logger; cbn;
        rewrite ?app_nil_r, <- ?app_assoc; done.
    - pose proof (Hfail 0%nat s1 eq_refl) as H1. cbn [Nat.add] in H1.
      cbn [retry_loop]. rewrite get_manifest_content_body_run. cbv zeta. rewrite H1.
      cbn [retry_if_exception_type]. change (stop_after_attempt 3 1) with false. cbn iota.
      rewrite !get_manifest_content_body_run.
      cbn [after_http_failures length clock Nat.add sleep snd] in *.
      destruct (content E (S (clock w)) (svc_subject svc) sid) as [resp|[status| |msg|e]] eqn:Hc.
      2: by destruct (Hlast status).
      all: unfold after_http_failures, request, logger; cbn;
        rewrite ?app_nil_r, <- ?app_assoc; done.
    - pose proof (Hfail 0%nat s1 eq_refl) as H1. cbn [Nat.add] in H1.
      pose proof (Hfail 1%nat s2 eq_refl) as H2. cbn [Nat.add] in H2.
      cbn [retry_loop]. rewrite get_manifest_content_body_run. cbv zeta. rewrite H1.
      cbn [retry_if_exception_type]. change (stop_after_attempt 3 1) with false. cbn iota.
      rewrite get_manifest_content_body_run. cbv zeta. cbn [sleep snd clock]. rewrite H2.
      cbn [retry_if_exception_type]. change (stop_after_attempt 3 2) with false. cbn iota.
      rewrite !get_manifest_content_body_run.
      cbn [after_http_failures length clock Nat.add sleep snd] in *.
      destruct (content E (S (S (clock w))) (svc_subject svc) sid)
        as [resp|[status| |msg|e]] eqn:Hc.
      2: by destruct (Hlast status).
      all: unfold after_http_failures, request, logger; cbn;
        rewrite ?app_nil_r, <- ?app_assoc; done. }
  split_and!.
  - intros statuses resp Hlen Hfail Hresp.
    assert (get_manifest_content E sid svc w =
              (Ret (manifest_of (default [] (resp_files resp))),
               (request (EvGetContent (svc_subject svc) sid)
                  (after_http_failures (svc_subject svc) sid statuses (length statuses) w)).2))
      as Heq.
    { apply (Hrun statuses); [done|done|by rewrite Hresp|].
      rewrite get_manifest_content_body_run. cbv zeta.
      cbn [after_http_failures clock]. by rewrite Hresp. }
    split; [done|]. intros Hnone. by rewrite Heq, (manifest_of_none _ Hnone).
  - intros statuses e Hlen Hfail Hresp Hne.
    apply (Hrun statuses); [done|done|rewrite Hresp; naive_solver|].
    rewrite get_manifest_content_body_run. cbv zeta.
    cbn [after_http_failures clock]. rewrite Hresp.
    destruct e; try done. by destruct (Hne status).
  - intros s1 s2 s3 Hfail.
    pose proof (Hfail 0%nat s1 eq_refl) as H1. cbn [Nat.add] in H1.
    pose proof (Hfail 1%nat s2 eq_refl) as H2. cbn [Nat.add] in H2.
    pose proof (Hfail 2%nat s3 eq_refl) as H3. cbn [Nat.add] in H3.
    unfold get_manifest_content, retry.
    cbn [retry_loop]. rewrite get_manifest_content_body_run. cbv zeta. rewrite H1.
    cbn [retry_if_exception_type]. change (stop_after_attempt 3 1) with false. cbn iota.
    rewrite get_manifest_content_body_run. cbv zeta. cbn [sleep snd clock]. rewrite H2.
    cbn [retry_if_exception_type]. change (stop_after_attempt 3 2) with false. cbn iota.
    rewrite get_manifest_content_body_run. cbv zeta. cbn [sleep snd clock]. rewrite H3.
    cbn [retry_if_exception_type]. change (stop_after_attempt 3 3) with true. cbn iota.
    unfold after_http_failures; cbn; rewrite ?app_nil_r, <- ?app_assoc; done.
Qed.

Lemma manifest_extractor_outcomes_witness :
  get_manifest_content not_found_then_plain "s1" script_svc world0
  = (Ret None,
     mkWorld 2 [(WARNING, AccessFoundError "s1" (HttpError 404))]
       (replicate 2 (EvGetContent "a@example.com" "s1")) [2] ∅
       {| table_id := ""; buffer := [] |}) ∧
  get_manifest_content flaky "s1" script_svc world0
  = (Ret (Some "{}"),
     mkWorld 3 [(WARNING, AccessFoundError "s1" (HttpError 403))]
       (replicate 3 (EvGetContent "a@example.com" "s1")) [2; 2] ∅
       {| table_id := ""; buffer := [] |}) ∧
  get_manifest_content busy_then_timeout "s1" script_svc world0
  = (Ret None,
     mkWorld 2 [(ERROR, UnknownManifestError "s1" (OtherException "timed out"))]
       (replicate 2 (EvGetContent "a@example.com" "s1")) [2] ∅
       {| table_id := ""; buffer := [] |}) ∧
  get_manifest_content forbidden "s1" script_svc world0
  = (Raise (RetryError (HttpError 403)),
     mkWorld 3 (replicate 3 (WARNING, AccessFoundError "s1" (HttpError 403)))
       (replicate 3 (EvGetContent "a@example.com" "s1")) [2; 2] ∅
       {| table_id := ""; buffer := [] |}).
Proof.
  split_and!.
  - apply (proj1 (manifest_extractor_outcomes not_found_then_plain "s1" script_svc world0)
             [404] {| resp_files := Some [code_file] |}); [simpl; lia| |reflexivity].
    intros [|[|k]] status Hk; simplify_eq/=; reflexivity.
  - apply (proj1 (manifest_extractor_outcomes flaky "s1" script_svc world0)
             [403; 500] {| resp_files := Some [code_file; manifest_file] |});
      [simpl; lia| |reflexivity].
    intros [|[|[|k]]] status Hk; simplify_eq/=; reflexivity.
  - apply (proj1 (proj2 (manifest_extractor_outcomes busy_then_timeout "s1" script_svc world0))
             [503] (OtherException "timed out")); [simpl; lia| |reflexivity|done].
    intros [|[|k]] status Hk; simplify_eq/=; reflexivity.
  - apply (proj2 (proj2 (manifest_extractor_outcomes forbidden "s1" script_svc world0))
             403 403 403).
    intros [|[|[|[|k]]]] status Hk; simplify_eq/=; reflexivity.
Defined.

(** ** Empty manifests *)

Lemma retry_ret {A} (f : M A) (w w1 : World) (a : A) :
  f w = (Ret a, w1) → retry f w = (Ret a, w1).
Proof. intros Hf. unfold retry. simpl. by rewrite Hf. Qed.

Lemma get_manifest_content_found (E : Env) (sid : string) (svc : Service) (w : World) resp :
  content E (clock w) (svc_subject svc) sid = Ret resp →
  get_manifest_content E sid svc w
  = (Ret (manifest_of (default [] (resp_files resp))),
     (request (EvGetContent (svc_subject svc) sid) w).2).
Proof.
  intros Hresp. apply retry_ret.
  unfold get_manifest_content_body, getContent. unfold_monad. simpl. by rewrite Hresp.
Qed.

(** C10: when the extractor returns a falsy manifest ([None] or the
    empty string) the scan appends no record for that script; in
    particular a script whose "appsscript" file is empty and a script
    without such a file leave the same rows and the same world. *)
Theorem empty_manifest_no_record (E : Env) (email : string) (svc : Service)
    (f : DriveFile) (rows : list Row) (w : World) :
  (∀ v w',
     get_manifest_content E (file_id f) svc w = (Ret v, w') →
     nonempty v = false →
     scan_file E email svc f rows w = (Ret rows, w')) ∧
  (∀ resp,
     content E (clock w) (svc_subject svc) (file_id f) = Ret resp →
     nonempty (manifest_of (default [] (resp_files resp))) = false →
     scan_file E email svc f rows w
     = (Ret rows, (request (EvGetContent (svc_subject svc) (file_id f)) w).2)).
Proof.
  assert (∀ v w',
     get_manifest_content E (file_id f) svc w = (Ret v, w') →
     nonempty v = false →
     scan_file E email svc f rows w = (Ret rows, w')) as Hfalsy.
  { intros v w' Hget Hv. unfold scan_file. unfold_monad. rewrite Hget.
    destruct v as [json|]; [|done]. by rewrite Hv. }
  split; [exact Hfalsy|].
  intros resp Hresp Hv. eapply Hfalsy; [|exact Hv].
  by apply get_manifest_content_found.
Qed.

Lemma empty_manifest_no_record_witness :
  scan_file empty_manifest_env "a@example.com" script_svc drive_file1 [] world0
  = (Ret [], (request (EvGetContent "a@example.com" "s1") world0).2) ∧
  scan_file quiet "a@example.com" script_svc drive_file1 [] world0
  = (Ret [], (request (EvGetContent "a@example.com" "s1") world0).2).
Proof.
  split.
  - apply (proj2 (empty_manifest_no_record empty_manifest_env "a@example.com"
                    script_svc drive_file1 [] world0)
             {| resp_files := Some [code_file; empty_manifest_file] |});
      [reflexivity | by vm_compute].
  - apply (proj2 (empty_manifest_no_record quiet "a@example.com"
                    script_svc drive_file1 [] world0)
             {| resp_files := None |}); [reflexivity | by vm_compute].
Defined.

(** ** Merge-upsert sink *)

Lemma string_app_nil_r (s : string) : s +:+ "" = s.
Proof. induction s as [|c s IH]; [done|]. unfold String.app in *. simpl. by rewrite IH. Qed.

Lemma temp_table_name_fresh E tid t : temp_table_name E tid t ≠ tid.
Proof.
  unfold temp_table_name. intros Heq.
  rewrite <- (string_app_nil_r tid) in Heq at 2.
  by apply String.app_inj in Heq.
Qed.

(** Without a dataset identifier the reference at line 109 cannot be
    built: the call raises before the [try], with no request and no log
    record. *)
Lemma execute_merge_query_unconfigured cfg E tid r rows w :
  DATASET_ID cfg = None →
  execute_merge_query cfg E tid (r :: rows) w
  = (Raise ValueError_dataset, (mark (EvSink tid (r :: rows)) w).2).
Proof.
  intros Hnone. unfold execute_merge_query, dataset_reference. unfold_monad. simpl.
  by rewrite Hnone.
Qed.

Lemma execute_merge_query_spec cfg E tid r rows w d :
  DATASET_ID cfg = Some d →
  let rows' := r :: rows in
  let temp := temp_table_name E tid (clock w) in
  let res := (execute_merge_query cfg E tid rows' w).1 in
  let w' := (execute_merge_query cfg E tid rows' w).2 in
  let fault := bq_fault E (pred (clock w')) (EvDeleteTable temp) in
  last (trace w') = Some (EvDeleteTable temp) ∧
  deleted_tables (trace w') = deleted_tables (trace w) ++ [temp] ∧
  sink_calls (trace w') = sink_calls (trace w) ++ [(tid, rows')] ∧
  res = (match fault with Some e => Raise e | None => Ret () end) ∧
  (fault = None → dataset w' !! temp = None) ∧
  log w' = log w ++ [sink_record cfg E tid rows' w] ∧
  sleeps w' = sleeps w ∧ batcher w' = batcher w.
Proof.
  intros Hd rows' temp.
  pose proof (temp_table_name_fresh E tid (clock w)) as Hfresh. fold temp in Hfresh.
  unfold sink_record, merge_failure.
  unfold execute_merge_query, dataset_reference, get_table, load_table_from_json,
    query_merge, delete_table, bq_request.
  unfold_monad. simpl. rewrite Hd. fold rows'. fold temp.
  generalize dependent temp. intros temp Hfresh.
  repeat (case_match; simplify_map_eq/=).
  all: unfold sink_calls, deleted_tables; rewrite ?last_snoc, ?omap_app; simpl.
  all: rewrite ?app_nil_r.
  all: split_and!; try done; try (intros; apply lookup_delete_eq); eauto.
Qed.

Lemma execute_merge_query_nil cfg E tid w :
  execute_merge_query cfg E tid [] w = (Ret (), (mark (EvSink tid []) w).2).
Proof. reflexivity. Qed.

(** C1, as stated, fails: when the request that deletes the staging
    table raises, the flush raises to its caller and the staging table
    is still there. *)
Lemma staging_delete_failure_escapes :
  let out := execute_merge_query settings0 delete_fails "manifest_audit_log" [row1]
               world_with_target in
  out.1 = Raise unavailable ∧
  dataset out.2 !! temp_table_name delete_fails "manifest_audit_log" 0 = Some [row1].
Proof. by vm_compute. Qed.

(** C1, amended: on a non-empty batch the sink first builds the
    reference of its staging table; without a dataset identifier this
    raises a ValueError to the caller before any request and any log
    record.  With a dataset identifier configured, the sink requests the
    deletion of its staging table exactly once, as its last request, on
    every path; the first failure among the schema lookup, the load and
    the merge is logged as an error and not raised, and without such a
    failure the success record is logged; the call raises only when the
    delete request itself raises, and when that request succeeds the
    call returns and the staging table is gone. *)
Theorem staging_cleanup cfg E tid r rows w :
  let temp := temp_table_name E tid (clock w) in
  let res := (execute_merge_query cfg E tid (r :: rows) w).1 in
  let w' := (execute_merge_query cfg E tid (r :: rows) w).2 in
  let fault := bq_fault E (pred (clock w')) (EvDeleteTable temp) in
  (DATASET_ID cfg = None →
   res = Raise ValueError_dataset ∧
   log w' = log w ∧ store_requests (trace w') = store_requests (trace w) ∧
   dataset w' = dataset w) ∧
  (∀ d, DATASET_ID cfg = Some d →
   last (trace w') = Some (EvDeleteTable temp) ∧
   deleted_tables (trace w') = deleted_tables (trace w) ++ [temp] ∧
   res = (match fault with Some e => Raise e | None => Ret () end) ∧
   (fault = None → res = Ret () ∧ dataset w' !! temp = None) ∧
   (merge_failure cfg E tid (r :: rows) w = None →
    log w' = log w ++ [(INFO, Merged (length (r :: rows)) tid)]) ∧
   (∀ e, merge_failure cfg E tid (r :: rows) w = Some e →
    log w' = log w ++ [(ERROR, MergeFailed tid e)])).
Proof.
  intros temp res w' fault. split.
  { intros Hnone. subst res w'.
    rewrite (execute_merge_query_unconfigured cfg E tid r rows w Hnone).
    cbn [fst snd mark log trace dataset]. split_and!; try done.
    unfold store_requests. by rewrite filter_app, app_nil_r. }
  intros d Hd.
  destruct (execute_merge_query_spec cfg E tid r rows w d Hd)
    as (Hlast & Hdel & _ & Hres & Hgone & Hlog & _).
  split_and!; try done.
  - intros Hnone. split; [|by apply Hgone].
    etrans; [exact Hres|].
    change (match fault with Some e => Raise e | None => Ret () end = Ret ()).
    by rewrite Hnone.
  - intros Hok. etrans; [exact Hlog|]. unfold sink_record. by rewrite Hok.
  - intros e He. etrans; [exact Hlog|]. unfold sink_record. by rewrite He.
Qed.

Lemma staging_cleanup_witness :
  let temp := temp_table_name merge_fails "manifest_audit_log" 0 in
  let out := execute_merge_query settings0 merge_fails "manifest_audit_log" [row1]
               world_with_stale_staging in
  let out' := execute_merge_query settings_no_dataset quiet "manifest_audit_log" [row1]
                world_with_target in
  dataset world_with_stale_staging !! temp = Some [row2] ∧
  (out.1 = Ret () ∧ dataset out.2 !! temp = None) ∧
  log out.2 = [(ERROR, MergeFailed "manifest_audit_log" unavailable)] ∧
  EvLoad temp [row1] ∈ trace out.2 ∧
  out'.1 = Raise ValueError_dataset ∧ log out'.2 = [].
Proof.
  pose proof (proj2 (staging_cleanup settings0 merge_fails "manifest_audit_log" row1 []
                       world_with_stale_staging) "audit" eq_refl)
    as (_ & _ & _ & Hgone & _ & Hlog).
  pose proof (proj1 (staging_cleanup settings_no_dataset quiet "manifest_audit_log" row1 []
                       world_with_target) eq_refl)
    as (Hraise & Hquiet & _).
  split_and!.
  - by vm_compute.
  - apply Hgone. reflexivity.
  - apply Hgone. reflexivity.
  - apply (Hlog unavailable). by vm_compute.
  - vm_compute. do 2 right. left.
  - exact Hraise.
  - exact Hquiet.
Defined.

(** The same call when DATASET_ID was never set. *)
Example unconfigured_dataset_raises :
  execute_merge_query settings_no_dataset quiet "manifest_audit_log" [row1] world_with_target
  = (Raise ValueError_dataset, (mark (EvSink "manifest_audit_log" [row1]) world_with_target).2).
Proof. by apply execute_merge_query_unconfigured. Qed.

(** ** Batching buffer *)


Lemma with_buffer_same w : with_buffer (buffer (batcher w)) w = w.
Proof. by destruct w as [c l t s d [tid b]]. Qed.


Lemma flush_nonempty_spec cfg E w :
  buffer (batcher w) ≠ [] →
  let res := (flush cfg E w).1 in
  let w' := (flush cfg E w).2 in
  sink_calls (trace w') = sink_calls (trace w) ++ [(table_id (batcher w), buffer (batcher w))] ∧
  table_id (batcher w') = table_id (batcher w) ∧
  buffer (batcher w') = match res with Ret _ => [] | Raise _ => buffer (batcher w) end.
Proof.
  intros Hb. destruct (buffer (batcher w)) as [|r rows] eqn:Hbuf; [done|].
  unfold flush. unfold_monad. rewrite Hbuf.
  set (w1 := mkWorld _ _ _ _ _ _).
  destruct (DATASET_ID cfg) as [d|] eqn:Hd.
  - destruct (execute_merge_query_spec cfg E (table_id (batcher w)) r rows w1 d Hd)
      as (_ & _ & Hsink & _ & _ & _ & _ & Hbat).
    destruct (execute_merge_query cfg E (table_id (batcher w)) (r :: rows) w1)
      as [[[]|e] w2] eqn:Hrun; simpl in *; [done|].
    by rewrite Hbat.
  - rewrite (execute_merge_query_unconfigured cfg E _ r rows w1 Hd). simpl.
    unfold sink_calls. by rewrite omap_app.
Qed.



Lemma add_below_threshold cfg E rows w :
  rows = [] ∨ (length (buffer (batcher w) ++ rows) < BQ_BATCH_SIZE)%nat →
  add cfg E rows w = (Ret (), with_buffer (buffer (batcher w) ++ rows) w).
Proof.
  intros Hlt. unfold add. destruct rows as [|r rows].
  - by rewrite app_nil_r, with_buffer_same.
  - destruct Hlt as [|Hlt]; [done|]. unfold_monad. simpl.
    case_decide; [lia|done].
Qed.

Lemma add_at_threshold cfg E rows w :
  rows ≠ [] → (BQ_BATCH_SIZE ≤ length (buffer (batcher w) ++ rows))%nat →
  add cfg E rows w = flush cfg E (with_buffer (buffer (batcher w) ++ rows) w).
Proof.
  intros Hne Hge. unfold add. destruct rows as [|r rows]; [done|].
  unfold_monad. simpl. case_decide; [done|lia].
Qed.




(** ** Paginated listings *)

Lemma after_requests_S n ev w :
  after_requests n ev (request ev w).2 = after_requests (S n) ev w.
Proof.
  unfold after_requests, request. simpl. f_equal; [lia|].
  by rewrite <- app_assoc.
Qed.

Lemma users_pages_run (l : listing User) (users : list User) (w : World) :
  users_pages l users w
  = (Ret (users ++ filter active (pages_items l).1, (pages_items l).2),
     after_requests (pages_count l) EvUsersList w).
Proof.
  revert users w. induction l as [items|items rest IH|e]; intros users w.
  - reflexivity.
  - cbn [users_pages]. unfold mbind, M_bind.
    destruct (request EvUsersList w) as [r w1] eqn:Hreq.
    assert (r = Ret (clock w) ∧ w1 = (request EvUsersList w).2) as [-> ->]
      by (by rewrite Hreq; unfold request in Hreq; simplify_eq).
    rewrite IH. cbn [pages_items pages_count fst snd].
    rewrite after_requests_S. by rewrite filter_app, app_assoc.
  - cbn [users_pages pages_items fst snd]. unfold_monad. by rewrite app_nil_r.
Qed.

Lemma get_all_domain_users_run E (svc : Service) (w : World) :
  let w1 := after_requests (pages_count (users_listing E)) EvUsersList
              (logger INFO FetchingUsers w).2 in
  get_all_domain_users E svc w =
    match (pages_items (users_listing E)).2 with
    | None =>
        (Ret (filter active (pages_items (users_listing E)).1),
         (logger INFO (TotalActiveUsers
            (length (filter active (pages_items (users_listing E)).1))) w1).2)
    | Some e => (Ret [], (logger ERROR (ErrorFetchingUsers e) w1).2)
    end.
Proof.
  unfold get_all_domain_users. unfold mbind at 1. unfold M_bind at 1.
  cbn [logger]. unfold mbind at 1. unfold M_bind at 1.
  rewrite users_pages_run. simpl.
  by destruct (pages_items (users_listing E)).2.
Qed.

Lemma get_impersonated_service_run E (api version subject : string) (w : World) :
  get_impersonated_service E api version subject w =
    match auth E (clock w) api subject with
    | None => (Ret (Some {| svc_api := api; svc_subject := subject |}),
               (request (EvAuth api version subject) w).2)
    | Some e => (Ret None,
                 (logger ERROR (AuthError subject api e)
                    (request (EvAuth api version subject) w).2).2)
    end.
Proof.
  unfold get_impersonated_service. unfold_monad. simpl.
  by destruct (auth E (clock w) api subject).
Qed.

Lemma scan_file_returns E email svc (f : DriveFile) (rows : list Row) (w : World) :
  ∃ rows' w', scan_file E email svc f rows w = (Ret (rows ++ rows'), w') ∧
              (length rows' ≤ 1)%nat.
Proof.
  unfold scan_file. unfold_monad.
  destruct (get_manifest_content E (file_id f) svc w) as [[[json|]|e] w1].
  - destruct (nonempty (Some json)).
    + eexists [_], _. split; [reflexivity|simpl; lia].
    + exists [], w1. rewrite app_nil_r. split; [done|simpl; lia].
  - exists [], w1. rewrite app_nil_r. split; [done|simpl; lia].
  - exists [], w1. rewrite app_nil_r. split; [done|simpl; lia].
Qed.

Lemma scan_files_returns E email svc (files : list DriveFile) (rows : list Row) (w : World) :
  ∃ rows' w', scan_files E email svc files rows w = (Ret (rows ++ rows'), w').
Proof.
  revert rows w. induction files as [|f files IH]; intros rows w.
  - exists [], w. by rewrite app_nil_r.
  - cbn [scan_files]. unfold mbind, M_bind.
    destruct (scan_file_returns E email svc f rows w) as (r1 & w1 & -> & _).
    destruct (IH (rows ++ r1) w1) as (r2 & w2 & ->).
    exists (r1 ++ r2), w2. by rewrite app_assoc.
Qed.

Lemma files_pages_returns E email svc (l : listing DriveFile) (rows : list Row) (w : World) :
  ∃ rows' w',
    files_pages E email svc l rows w = (Ret (rows ++ rows', (pages_items l).2), w').
Proof.
  revert rows w. induction l as [files|files rest IH|e]; intros rows w;
    cbn [files_pages pages_items snd]; unfold mbind, M_bind; cbn [request].
  - destruct (scan_files_returns E email svc files rows (request (EvFilesList email) w).2)
      as (r1 & w1 & Hscan).
    cbn [request snd] in Hscan. rewrite Hscan. by exists r1, w1.
  - destruct (scan_files_returns E email svc files rows (request (EvFilesList email) w).2)
      as (r1 & w1 & Hscan).
    cbn [request snd] in Hscan. rewrite Hscan.
    destruct (IH (rows ++ r1) w1) as (r2 & w2 & ->).
    exists (r1 ++ r2), w2. by rewrite app_assoc.
  - eexists [], _. by rewrite app_nil_r.
Qed.

Lemma scan_user_with_handles E email (w : World) rows failure w3 :
  auth E (clock w) "drive" email = None →
  auth E (S (clock w)) "script" email = None →
  files_pages E email (script_service_of email) (files_listing E email) []
    (after_handles email w) = (Ret (rows, failure), w3) →
  (scan_user_for_manifests E email w).1 = Ret rows.
Proof.
  intros Hd Hs Hpages. unfold scan_user_for_manifests.
  unfold mbind at 1. unfold M_bind at 1. rewrite get_impersonated_service_run, Hd.
  unfold mbind at 1. unfold M_bind at 1. rewrite get_impersonated_service_run.
  cbn [request snd clock]. rewrite Hs.
  unfold after_handles, script_service_of in Hpages. cbn [request snd clock] in Hpages.
  unfold mbind at 1. unfold M_bind at 1. cbn [request snd clock]. rewrite Hpages.
  unfold_monad. destruct failure; [done|]. by destruct rows.
Qed.

Lemma scan_user_without_handles E email (w : World) :
  auth E (clock w) "drive" email ≠ None ∨ auth E (S (clock w)) "script" email ≠ None →
  (scan_user_for_manifests E email w).1 = Ret [] ∧
  last (log (scan_user_for_manifests E email w).2) = Some (WARNING, SkippingUser email) ∧
  trace (scan_user_for_manifests E email w).2
    = trace w ++ [EvAuth "drive" "v3" email; EvAuth "script" "v1" email].
Proof.
  intros Hfail.
  destruct (scan_user_for_manifests E email w) as [res w'] eqn:Hrun.
  unfold scan_user_for_manifests in Hrun.
  unfold mbind at 1 in Hrun. unfold M_bind at 1 in Hrun.
  rewrite get_impersonated_service_run in Hrun.
  destruct (auth E (clock w) "drive" email) as [e1|] eqn:Hd;
    unfold mbind at 1 in Hrun; unfold M_bind at 1 in Hrun;
    rewrite get_impersonated_service_run in Hrun;
    cbn [request logger snd clock] in Hrun.
  - destruct (auth E (S (clock w)) "script" email) as [e2|]; unfold_monad;
      simplify_eq/=; by rewrite last_snoc, <- app_assoc.
  - destruct (auth E (S (clock w)) "script" email) as [e2|]; [|by destruct Hfail].
    unfold_monad; simplify_eq/=. by rewrite last_snoc, <- app_assoc.
Qed.

Lemma scan_user_returns E email (w : World) :
  ∃ rows, (scan_user_for_manifests E email w).1 = Ret rows.
Proof.
  destruct (auth E (clock w) "drive" email) as [e1|] eqn:Hd.
  { exists []. apply scan_user_without_handles. left. by rewrite Hd. }
  destruct (auth E (S (clock w)) "script" email) as [e2|] eqn:Hs.
  { exists []. apply scan_user_without_handles. right. by rewrite Hs. }
  destruct (files_pages_returns E email (script_service_of email) (files_listing E email) []
              (after_handles email w)) as (rows & w3 & Hpages).
  exists rows. by eapply scan_user_with_handles.
Qed.

(** C4, as stated, fails for the per-user file listing: when the second
    page fails, the record collected from the first page is returned. *)
Lemma partial_scan_is_returned :
  (pages_items (files_listing second_page_fails "a@example.com")).2 = Some (HttpError 500) ∧
  (scan_user_for_manifests second_page_fails "a@example.com" world0).1 = Ret [row1] ∧
  (scan_user_for_manifests second_page_fails "a@example.com" world0).1 ≠ Ret [].
Proof. by vm_compute. Qed.

Lemma scan_user_with_failure E email (w : World) rows e w3 :
  auth E (clock w) "drive" email = None →
  auth E (S (clock w)) "script" email = None →
  files_pages E email (script_service_of email) (files_listing E email) []
    (after_handles email w) = (Ret (rows, Some e), w3) →
  scan_user_for_manifests E email w
  = (Ret rows, (logger ERROR (ErrorScanningUser email e) w3).2).
Proof.
  intros Hd Hs Hpages. unfold scan_user_for_manifests.
  unfold mbind at 1. unfold M_bind at 1. rewrite get_impersonated_service_run, Hd.
  unfold mbind at 1. unfold M_bind at 1. rewrite get_impersonated_service_run.
  cbn [request snd clock]. rewrite Hs.
  unfold after_handles, script_service_of in Hpages. cbn [request snd clock] in Hpages.
  unfold mbind at 1. unfold M_bind at 1. cbn [request snd clock]. rewrite Hpages.
  by unfold_monad.
Qed.

(** C4, amended: when a page of the directory listing fails,
    [get_all_domain_users] logs the error and returns the empty list, so
    nothing of the earlier pages reaches the caller (without a failure
    it returns the active users of all pages, in order).  When a page of
    a user's file listing fails, [scan_user_for_manifests] logs the
    error and returns the rows its page loop had accumulated up to the
    failure: every page hands the rows collected so far, extended with
    its own, to the next page, and the failing page returns the rows it
    was handed as they are. *)
Theorem listing_failure_outcomes E (w : World) :
  (∀ svc e,
     (pages_items (users_listing E)).2 = Some e →
     (get_all_domain_users E svc w).1 = Ret [] ∧
     last (log (get_all_domain_users E svc w).2) = Some (ERROR, ErrorFetchingUsers e)) ∧
  (∀ svc,
     (pages_items (users_listing E)).2 = None →
     (get_all_domain_users E svc w).1 = Ret (filter active (pages_items (users_listing E)).1)) ∧
  (∀ email rows failure w3,
     auth E (clock w) "drive" email = None →
     auth E (S (clock w)) "script" email = None →
     files_pages E email (script_service_of email) (files_listing E email) []
       (after_handles email w) = (Ret (rows, failure), w3) →
     failure = (pages_items (files_listing E email)).2 ∧
     (scan_user_for_manifests E email w).1 = Ret rows) ∧
  (∀ email e,
     auth E (clock w) "drive" email = None →
     auth E (S (clock w)) "script" email = None →
     (pages_items (files_listing E email)).2 = Some e →
     ∃ rows w3,
       files_pages E email (script_service_of email) (files_listing E email) []
         (after_handles email w) = (Ret (rows, Some e), w3) ∧
       scan_user_for_manifests E email w
       = (Ret rows, (logger ERROR (ErrorScanningUser email e) w3).2)) ∧
  (∀ email svc files rest rows w0,
     ∃ new w1,
       scan_files E email svc files rows (request (EvFilesList email) w0).2
       = (Ret (rows ++ new), w1) ∧
       files_pages E email svc (NextPage files rest) rows w0
       = files_pages E email svc rest (rows ++ new) w1) ∧
  (∀ email svc e rows w0,
     files_pages E email svc (FailedPage e) rows w0
     = (Ret (rows, Some e), (request (EvFilesList email) w0).2)).
Proof.
  split_and!.
  - intros svc e He. rewrite get_all_domain_users_run, He. simpl.
    by rewrite last_snoc.
  - intros svc He. by rewrite get_all_domain_users_run, He.
  - intros email rows failure w3 Hd Hs Hpages. split.
    + destruct (files_pages_returns E email (script_service_of email)
                  (files_listing E email) [] (after_handles email w)) as (r & w' & Heq).
      rewrite Heq in Hpages. by simplify_eq.
    + by eapply scan_user_with_handles.
  - intros email e Hd Hs He.
    destruct (files_pages_returns E email (script_service_of email)
                (files_listing E email) [] (after_handles email w)) as (rows & w3 & Heq).
    rewrite He in Heq. exists rows, w3. split; [done|].
    by apply scan_user_with_failure.
  - intros email svc files rest rows w0.
    destruct (scan_files_returns E email svc files rows (request (EvFilesList email) w0).2)
      as (new & w1 & Hscan).
    exists new, w1. split; [done|].
    cbn [files_pages]. unfold mbind at 1. unfold M_bind at 1.
    change (request (EvFilesList email) w0)
      with (Ret (clock w0), (request (EvFilesList email) w0).2).
    cbn iota. unfold mbind at 1. unfold M_bind at 1. by rewrite Hscan.
  - done.
Qed.

Lemma listing_failure_outcomes_witness :
  (get_all_domain_users directory_fails admin_svc world0).1 = Ret [] ∧
  (scan_user_for_manifests second_page_fails "a@example.com" world0).1 = Ret [row1] ∧
  last (log (scan_user_for_manifests second_page_fails "a@example.com" world0).2)
  = Some (ERROR, ErrorScanningUser "a@example.com" (HttpError 500)).
Proof.
  split_and!.
  - apply (proj1 (listing_failure_outcomes directory_fails world0) admin_svc (HttpError 500)).
    reflexivity.
  - eapply (proj1 (proj2 (proj2 (listing_failure_outcomes second_page_fails world0)))
              "a@example.com" [row1] (Some (HttpError 500))); [reflexivity..|].
    by vm_compute.
  - destruct (proj1 (proj2 (proj2 (proj2 (listing_failure_outcomes second_page_fails world0))))
                "a@example.com" (HttpError 500) eq_refl eq_refl eq_refl)
      as (rows & w3 & _ & ->).
    cbn [snd logger log]. apply last_snoc.
Defined.

(** ** Per-user scan: isolation of failures *)

(** C5, as stated, fails on "logs": the extraction of the only script
    fails (three 503 answers), the scan goes on and returns, and no log
    record has been written. *)
Lemma per_script_failure_not_logged :
  let w := (request (EvFilesList "a@example.com") (after_handles "a@example.com" world0)).2 in
  let out := scan_user_for_manifests busy_scan "a@example.com" world0 in
  (get_manifest_content busy_scan "s1" (script_service_of "a@example.com") w).1
    = Raise (RetryError (HttpError 503)) ∧
  out.1 = Ret [] ∧ log out.2 = [].
Proof. by vm_compute. Qed.

(** C5, amended: when the acquisition of either handle fails the scan
    logs a warning and returns the empty list; when the extraction of a
    script raises, the loop goes on with the next script with the rows
    unchanged (the scan itself writes no log record for it: only the
    extractor logs, and only for 403/404 and non-HTTP failures); the
    scan never raises and always returns its accumulated rows. *)
Theorem scan_isolation E email (w : World) :
  (auth E (clock w) "drive" email ≠ None ∨ auth E (S (clock w)) "script" email ≠ None →
   (scan_user_for_manifests E email w).1 = Ret [] ∧
   last (log (scan_user_for_manifests E email w).2) = Some (WARNING, SkippingUser email)) ∧
  (∃ rows, (scan_user_for_manifests E email w).1 = Ret rows) ∧
  (∀ svc f rest rows w0 e w1,
     get_manifest_content E (file_id f) svc w0 = (Raise e, w1) →
     scan_file E email svc f rows w0 = (Ret rows, w1) ∧
     scan_files E email svc (f :: rest) rows w0 = scan_files E email svc rest rows w1).
Proof.
  split_and!.
  - intros Hfail. destruct (scan_user_without_handles E email w Hfail) as (? & ? & _). done.
  - apply scan_user_returns.
  - intros svc f rest rows w0 e w1 Hget.
    assert (scan_file E email svc f rows w0 = (Ret rows, w1)) as Hfile.
    { unfold scan_file. unfold_monad. by rewrite Hget. }
    split; [done|]. cbn [scan_files]. unfold mbind, M_bind. by rewrite Hfile.
Qed.

Lemma scan_isolation_witness :
  (scan_user_for_manifests no_drive_handle "a@example.com" world0).1 = Ret [] ∧
  scan_files busy_scan "a@example.com" script_svc [drive_file1] [] world0
    = (Ret [], (retry_loop 3 1 (get_manifest_content_body busy_scan "s1" script_svc) world0).1.2).
Proof.
  split.
  - apply (proj1 (scan_isolation no_drive_handle "a@example.com" world0)).
    left. by vm_compute.
  - pose proof (proj2 (proj2 (scan_isolation busy_scan "a@example.com" world0))
                  script_svc drive_file1 [] [] world0 (RetryError (HttpError 503))
                  (retry_loop 3 1 (get_manifest_content_body busy_scan "s1" script_svc) world0).1.2
                  eq_refl) as [_ ->].
    reflexivity.
Defined.

(** ** Entry point *)

Lemma sink_calls_replicate_users n : sink_calls (replicate n EvUsersList) = [].
Proof. by induction n. Qed.

Lemma store_requests_replicate_users n : store_requests (replicate n EvUsersList) = [].
Proof. by induction n. Qed.

Lemma get_all_domain_users_result E svc (w : World) :
  (get_all_domain_users E svc w).1 = Ret (listed_users (users_listing E)) ∧
  trace (get_all_domain_users E svc w).2
    = trace w ++ replicate (pages_count (users_listing E)) EvUsersList ∧
  dataset (get_all_domain_users E svc w).2 = dataset w ∧
  batcher (get_all_domain_users E svc w).2 = batcher w.
Proof.
  rewrite get_all_domain_users_run. unfold listed_users.
  by destruct (pages_items (users_listing E)).2.
Qed.

Lemma main_handler_admin_failure cfg E (w : World) e :
  auth E (clock w) "admin" (admin_of cfg) = Some e →
  main_handler cfg E w =
    (Ret ("Admin Auth Failure", 500),
     (logger ERROR (AuthError (admin_of cfg) "admin" e)
        (request (EvAuth "admin" "directory_v1" (admin_of cfg))
           (logger INFO StartingPipeline w).2).2).2).
Proof.
  intros Hauth. unfold main_handler, try_except.
  unfold mbind at 1. unfold M_bind at 1. cbn [logger].
  unfold mbind at 1. unfold M_bind at 1.
  rewrite get_impersonated_service_run. cbn [clock]. fold (admin_of cfg).
  by rewrite Hauth.
Qed.

Lemma main_handler_no_users cfg E (w : World) :
  auth E (clock w) "admin" (admin_of cfg) = None →
  listed_users (users_listing E) = [] →
  main_handler cfg E w =
    (Ret ("No Users Found", 200),
     (logger WARNING NoUsersFound
        (get_all_domain_users E {| svc_api := "admin"; svc_subject := admin_of cfg |}
           (after_admin_handle cfg w)).2).2).
Proof.
  intros Hauth Hnone. unfold main_handler, try_except.
  unfold mbind at 1. unfold M_bind at 1. cbn [logger].
  unfold mbind at 1. unfold M_bind at 1.
  rewrite get_impersonated_service_run. cbn [clock]. fold (admin_of cfg).
  rewrite Hauth.
  unfold mbind at 1. unfold M_bind at 1. cbn [BigQueryBatcher set_batcher].
  unfold mbind at 1. unfold M_bind at 1.
  unfold after_admin_handle. cbn [BigQueryBatcher set_batcher logger request snd].
  match goal with
  | |- context [get_all_domain_users E ?s ?w0] =>
      destruct (get_all_domain_users_result E s w0) as (Hres & _);
      destruct (get_all_domain_users E s w0) as [res w1]
  end.
  cbn [fst snd] in *. rewrite Hres, Hnone. reflexivity.
Qed.

Lemma main_handler_returns cfg E (w : World) :
  ∃ msg code w',
    main_handler cfg E w = (Ret (msg, code), w') ∧
    ((msg, code) = ("Success", 200) ∨
     (msg, code) = ("No Users Found", 200) ∨
     (msg, code) = ("Admin Auth Failure", 500) ∨
     ∃ e, (msg, code) = ("Failed: " +:+ str_exn e, 500)).
Proof.
  unfold main_handler. unfold_monad.
  repeat (case_match; simplify_eq/=); eauto 10.
Qed.

(** C8: the entry point always returns, and what it returns is
    ("Success", 200), ("No Users Found", 200), ("Admin Auth Failure", 500)
    or ("Failed: <detail>", 500); when the admin handle cannot be
    acquired it returns ("Admin Auth Failure", 500) and the only request
    made is that acquisition; when the list of active users is empty it
    returns ("No Users Found", 200) and neither the sink nor the store
    has been called. *)
Theorem main_handler_outcomes cfg E (w : World) :
  (∃ msg code w',
     main_handler cfg E w = (Ret (msg, code), w') ∧
     ((msg, code) = ("Success", 200) ∨
      (msg, code) = ("No Users Found", 200) ∨
      (msg, code) = ("Admin Auth Failure", 500) ∨
      ∃ e, (msg, code) = ("Failed: " +:+ str_exn e, 500))) ∧
  (∀ e, auth E (clock w) "admin" (admin_of cfg) = Some e →
     (main_handler cfg E w).1 = Ret ("Admin Auth Failure", 500) ∧
     trace (main_handler cfg E w).2
       = trace w ++ [EvAuth "admin" "directory_v1" (admin_of cfg)] ∧
     dataset (main_handler cfg E w).2 = dataset w ∧
     batcher (main_handler cfg E w).2 = batcher w) ∧
  (auth E (clock w) "admin" (admin_of cfg) = None →
   listed_users (users_listing E) = [] →
     (main_handler cfg E w).1 = Ret ("No Users Found", 200) ∧
     sink_calls (trace (main_handler cfg E w).2) = sink_calls (trace w) ∧
     store_requests (trace (main_handler cfg E w).2) = store_requests (trace w) ∧
     dataset (main_handler cfg E w).2 = dataset w).
Proof.
  split_and!.
  - apply main_handler_returns.
  - intros e Hauth. by rewrite (main_handler_admin_failure cfg E w e Hauth).
  - intros Hauth Hnone. rewrite (main_handler_no_users cfg E w Hauth Hnone).
    match goal with
    | |- context [get_all_domain_users E ?s ?w0] =>
        destruct (get_all_domain_users_result E s w0) as (_ & Htr & Hds & _)
    end.
    cbn [fst snd logger trace dataset]. rewrite Htr, Hds.
    unfold after_admin_handle. cbn [BigQueryBatcher set_batcher logger request snd trace dataset].
    unfold sink_calls, store_requests.
    rewrite !omap_app, !filter_app.
    fold (sink_calls (replicate (pages_count (users_listing E)) EvUsersList)).
    fold (store_requests (replicate (pages_count (users_listing E)) EvUsersList)).
    rewrite sink_calls_replicate_users, store_requests_replicate_users.
    split_and!; try done; by rewrite !app_nil_r.
Qed.

Lemma main_handler_outcomes_witness :
  (main_handler settings0 admin_rejected world0).1 = Ret ("Admin Auth Failure", 500) ∧
  (main_handler settings0 quiet world0).1 = Ret ("No Users Found", 200).
Proof.
  split.
  - apply (proj1 (proj2 (main_handler_outcomes settings0 admin_rejected world0))
             (OtherException "invalid_grant")).
    reflexivity.
  - apply (proj2 (proj2 (main_handler_outcomes settings0 quiet world0))); reflexivity.
Defined.

(** ** The MERGE statement: last write wins *)

Lemma key_unique l x y :
  NoDup (keys l) → x ∈ l → y ∈ l → script_id x = script_id y → x = y.
Proof.
  unfold keys. induction l as [|a l IH]; intros Hnd Hx Hy Hk; [by apply elem_of_nil in Hx|].
  rewrite fmap_cons in Hnd. apply NoDup_cons in Hnd as [Ha Hnd].
  apply elem_of_cons in Hx as [->|Hx]; apply elem_of_cons in Hy as [->|Hy]; try done.
  - destruct Ha. rewrite Hk. by apply list_elem_of_fmap_2.
  - destruct Ha. rewrite <- Hk. by apply list_elem_of_fmap_2.
  - by apply IH.
Qed.

Lemma filter_key_absent l k :
  k ∉ keys l → filter (λ s, k = script_id s) l = [].
Proof.
  unfold keys. induction l as [|a l IH]; intros Hk; [done|].
  rewrite fmap_cons, not_elem_of_cons in Hk. destruct Hk as [Hne Hk].
  rewrite filter_cons. case_decide; [done|]. by apply IH.
Qed.

Lemma filter_key_length l k :
  NoDup (keys l) → (length (filter (λ s, k = script_id s) l) ≤ 1)%nat.
Proof.
  unfold keys. induction l as [|a l IH]; intros Hnd; [simpl; lia|].
  rewrite fmap_cons in Hnd. apply NoDup_cons in Hnd as [Ha Hnd].
  rewrite filter_cons. case_decide as Hk; [|by apply IH].
  subst k. rewrite filter_key_absent; [simpl; lia|done].
Qed.

Lemma not_ambiguous T S : NoDup (keys S) → ¬ ambiguous T S.
Proof.
  intros Hnd. unfold ambiguous. rewrite Exists_exists. intros (t & _ & Hlen).
  pose proof (filter_key_length S (script_id t) Hnd). lia.
Qed.

Lemma update_set_same t s : script_id t = script_id s → update_set t s = s.
Proof. intros Hk. destruct s. unfold update_set. simpl in *. by rewrite Hk. Qed.

Lemma when_matched_key S t : script_id (when_matched S t) = script_id t.
Proof. unfold when_matched. by destruct (list_find _ S) as [[i s]|]. Qed.

Lemma keys_when_matched S T : keys (when_matched S <$> T) = keys T.
Proof.
  unfold keys. rewrite <- list_fmap_compose. apply list_fmap_ext.
  intros i t _. apply when_matched_key.
Qed.

Lemma when_matched_in S t s :
  NoDup (keys S) → s ∈ S → script_id t = script_id s → when_matched S t = s.
Proof.
  intros Hnd Hs Hk. unfold when_matched.
  destruct (list_find_elem_of (λ s, script_id t = script_id s) S s Hs Hk) as [[i s'] Hfind].
  rewrite Hfind. apply list_find_Some in Hfind as (Hi & Hk' & _).
  apply list_elem_of_lookup_2 in Hi.
  assert (s' = s) as -> by (apply (key_unique S); congruence).
  by apply update_set_same.
Qed.

Lemma when_matched_out S t : script_id t ∉ keys S → when_matched S t = t.
Proof.
  intros Hk. unfold when_matched.
  destruct (list_find _ S) as [[i s]|] eqn:Hfind; [|done].
  apply list_find_Some in Hfind as (Hi & Hk' & _).
  apply list_elem_of_lookup_2 in Hi. destruct Hk. rewrite Hk'.
  by apply list_elem_of_fmap_2.
Qed.

Lemma keys_when_not_matched T S k :
  k ∈ keys (when_not_matched T S) ↔ k ∈ keys S ∧ k ∉ keys T.
Proof.
  unfold keys, when_not_matched. rewrite !list_elem_of_fmap. split.
  - intros (s & -> & Hs). apply list_elem_of_filter in Hs as [Hn Hs]. split; [by exists s|].
    by rewrite list_elem_of_fmap in Hn.
  - intros [(s & -> & Hs) Hn]. exists s. split; [done|]. apply list_elem_of_filter.
    split; [|done]. by rewrite list_elem_of_fmap.
Qed.

Lemma merge_statement_spec T S :
  NoDup (keys T) → NoDup (keys S) →
  ∃ T', merge_statement T S = Some T' ∧
        keys T' = keys T ++ keys (when_not_matched T S) ∧
        NoDup (keys T') ∧
        (∀ s, s ∈ S → s ∈ T') ∧
        (∀ t, t ∈ T → script_id t ∉ keys S → t ∈ T').
Proof.
  intros HT HS. unfold merge_statement.
  destruct (decide (ambiguous T S)) as [Hamb|_]; [by apply not_ambiguous in Hamb|].
  eexists. split; [reflexivity|].
  assert (keys ((when_matched S <$> T) ++ when_not_matched T S)
          = keys T ++ keys (when_not_matched T S)) as Hkeys.
  { unfold keys. rewrite fmap_app. f_equal. apply (keys_when_matched S T). }
  split_and!.
  - done.
  - rewrite Hkeys. apply NoDup_app. split_and!; [done| |].
    + intros k Hk Hk'. apply keys_when_not_matched in Hk'. tauto.
    + eapply sublist_NoDup; [exact HS|]. unfold keys, when_not_matched.
      apply fmap_sublist, sublist_filter.
  - intros s Hs. apply elem_of_app.
    destruct (decide (script_id s ∈ keys T)) as [Hin|Hout].
    + left. apply list_elem_of_fmap in Hin as (t & Hk & Ht).
      apply list_elem_of_fmap. exists t. split; [|done].
      symmetry. by apply when_matched_in.
    + right. by apply list_elem_of_filter.
  - intros t Ht Hk. apply elem_of_app. left.
    apply list_elem_of_fmap. exists t. split; [|done]. symmetry. by apply when_matched_out.
Qed.

Lemma exactly_one_row l x :
  NoDup (keys l) → x ∈ l → filter (λ t, script_id x = script_id t) l = [x].
Proof.
  unfold keys. induction l as [|a l IH]; intros Hnd Hx; [by apply elem_of_nil in Hx|].
  rewrite fmap_cons in Hnd. apply NoDup_cons in Hnd as [Ha Hnd].
  rewrite filter_cons. apply elem_of_cons in Hx as [->|Hx].
  - case_decide; [|done]. by rewrite filter_key_absent.
  - case_decide as Hk; [|by apply IH].
    destruct Ha. rewrite <- Hk. by apply list_elem_of_fmap_2.
Qed.

Lemma fmap_fixed {A} (f : A → A) (l : list A) :
  (∀ x, x ∈ l → f x = x) → f <$> l = l.
Proof.
  induction l as [|a l IH]; intros Hf; [done|].
  rewrite fmap_cons, Hf, IH; [done| |by left].
  intros x Hx. apply Hf. by right.
Qed.

Lemma filter_none {A} (P : A → Prop) `{!∀ x, Decision (P x)} (l : list A) :
  (∀ x, x ∈ l → ¬ P x) → filter P l = [].
Proof.
  induction l as [|a l IH]; intros Hf; [done|].
  rewrite filter_cons. case_decide as Ha.
  - destruct (Hf a); [by left|done].
  - apply IH. intros x Hx. apply Hf. by right.
Qed.

Lemma merge_statement_same T B :
  NoDup (keys T) → NoDup (keys B) → (∀ s, s ∈ B → s ∈ T) →
  merge_statement T B = Some T.
Proof.
  intros HT HB Hin. unfold merge_statement.
  destruct (decide (ambiguous T B)) as [Hamb|_]; [by apply not_ambiguous in Hamb|].
  f_equal.
  assert (when_not_matched T B = []) as ->.
  { unfold when_not_matched. apply filter_none. intros s Hs Hn. apply Hn.
    apply list_elem_of_fmap_2. by apply Hin. }
  rewrite app_nil_r. apply fmap_fixed. intros t Ht.
  destruct (decide (script_id t ∈ keys B)) as [Hk|Hk].
  - apply list_elem_of_fmap in Hk as (s & Hk & Hs).
    rewrite (when_matched_in B t s HB Hs Hk).
    apply (key_unique T); auto.
  - by apply when_matched_out.
Qed.

(** X10: with a dataset identifier configured and no injected fault, a
    non-empty batch whose MERGE is accepted is flushed without raising,
    leaves the target table as [merge_statement] says and leaves no
    staging table. *)
Lemma execute_merge_query_merges cfg E tid r rows w d T T' :
  DATASET_ID cfg = Some d →
  (∀ t ev, bq_fault E t ev = None) →
  dataset w !! tid = Some T →
  merge_statement T (r :: rows) = Some T' →
  (execute_merge_query cfg E tid (r :: rows) w).1 = Ret () ∧
  dataset (execute_merge_query cfg E tid (r :: rows) w).2 !! tid = Some T' ∧
  dataset (execute_merge_query cfg E tid (r :: rows) w).2
    !! temp_table_name E tid (clock w) = None.
Proof.
  intros Hd Hok Htgt Hmerge.
  pose proof (temp_table_name_fresh E tid (clock w)) as Hfresh.
  unfold execute_merge_query, dataset_reference, get_table, load_table_from_json,
    query_merge, delete_table, bq_request.
  unfold_monad. simpl. rewrite Hd. simpl. rewrite !Hok, Htgt. simpl. rewrite !Hok. simpl.
  rewrite lookup_insert_ne, Htgt by done. rewrite lookup_insert_eq, Hmerge. simpl.
  rewrite !Hok. simpl. split_and!; [done| |].
  - rewrite lookup_delete_ne by done. by rewrite lookup_insert_eq.
  - by rewrite lookup_delete_eq.
Qed.

(** C2, as stated, fails: a batch that lists the same script twice,
    merged into an empty table, inserts two rows for that script; the
    second merge of the same batch is then rejected, and through the
    sink the table is left with the two rows. *)
Lemma duplicate_ids_leave_two_rows :
  let w1 := (execute_merge_query settings0 quiet "manifest_audit_log" [row1; row1]
               world_with_target).2 in
  let w2 := (execute_merge_query settings0 quiet "manifest_audit_log" [row1; row1] w1).2 in
  merge_statement [] [row1; row1] = Some [row1; row1] ∧
  merge_statement [row1; row1] [row1; row1] = None ∧
  dataset w2 !! "manifest_audit_log" = Some [row1; row1] ∧
  filter (λ t, script_id row1 = script_id t) [row1; row1] ≠ [row1].
Proof. by vm_compute. Qed.

(** C2, amended: for a target table with at most one row per script_id
    and a batch with pairwise distinct script_ids, the MERGE is accepted,
    overwrites the row of every matched script_id with the batch row and
    inserts the others; merging a second batch with the same script_ids
    inserts nothing and leaves, for every row of the second batch,
    exactly one target row with that script_id, equal to it; rows of
    other scripts are kept, and merging the very same batch again
    changes nothing. *)
Theorem merge_twice T B B' :
  NoDup (keys T) → NoDup (keys B) → keys B' = keys B →
  ∃ T1 T2,
    merge_statement T B = Some T1 ∧
    merge_statement T1 B' = Some T2 ∧
    keys T2 = keys T1 ∧
    NoDup (keys T2) ∧
    (∀ s, s ∈ B' → filter (λ t, script_id s = script_id t) T2 = [s]) ∧
    (∀ t, t ∈ T → script_id t ∉ keys B → t ∈ T2) ∧
    (B' = B → T2 = T1).
Proof.
  intros HT HB Hsame.
  destruct (merge_statement_spec T B HT HB) as (T1 & H1 & Hk1 & Hnd1 & Hin1 & Hout1).
  assert (NoDup (keys B')) as HB' by by rewrite Hsame.
  destruct (merge_statement_spec T1 B' Hnd1 HB') as (T2 & H2 & Hk2 & Hnd2 & Hin2 & Hout2).
  exists T1, T2. split_and!; try done.
  - rewrite Hk2.
    assert (when_not_matched T1 B' = []) as ->; [|by rewrite app_nil_r].
    unfold when_not_matched. apply filter_none. intros s Hs Hn. apply Hn.
    apply (list_elem_of_fmap_2 script_id) in Hs. fold (keys B') in Hs.
    rewrite Hsame in Hs. apply list_elem_of_fmap in Hs as (s0 & -> & Hs0).
    apply list_elem_of_fmap_2. by apply Hin1.
  - intros s Hs. apply exactly_one_row; auto.
  - intros t Ht Hk. apply Hout2; [by apply Hout1|]. by rewrite Hsame.
  - intros ->. rewrite (merge_statement_same T1 B Hnd1 HB Hin1) in H2. congruence.
Qed.

Lemma merge_twice_witness :
  ∃ T1 T2,
    merge_statement [row2] [row1] = Some T1 ∧
    merge_statement T1 [row1_later] = Some T2 ∧
    filter (λ t, script_id row1_later = script_id t) T2 = [row1_later] ∧
    row2 ∈ T2.
Proof.
  destruct (merge_twice [row2] [row1] [row1_later])
    as (T1 & T2 & H1 & H2 & _ & _ & Hone & Hkeep & _).
  - vm_compute. apply NoDup_singleton.
  - vm_compute. apply NoDup_singleton.
  - reflexivity.
  - exists T1, T2. split_and!; [done..| |].
    + apply Hone. by left.
    + apply Hkeep; [by left|]. unfold keys. simpl.
      intros Hin. apply list_elem_of_singleton in Hin. discriminate.
Defined.

(** * Further properties *)

(** ** Start-up: what a loaded configuration guarantees *)

Lemma contains_dot_split_dot_last (s : string) : contains_dot (split_dot_last s) = false.
Proof.
  induction s as [|c r IH]; [done|]. simpl.
  destruct (contains_dot r) eqn:Hr; [done|].
  destruct (decide (c = "."%char)) as [->|Hc]; [done|].
  simpl. by destruct (decide (c = "."%char)).
Qed.

Lemma split_dot_last_plain (s : string) : contains_dot s = false → split_dot_last s = s.
Proof.
  induction s as [|c r IH]; [done|]. simpl.
  destruct (decide (c = "."%char)) as [->|Hc]; [done|].
  intros Hr. by rewrite Hr.
Qed.

Lemma contains_dot_app_dot (p d : string) : contains_dot (p +:+ "." +:+ d) = true.
Proof.
  induction p as [|c p IH]; [done|].
  unfold String.app in *. simpl. by destruct (decide (c = "."%char)).
Qed.

Lemma split_dot_last_app_dot (p d : string) :
  contains_dot d = false → split_dot_last (p +:+ "." +:+ d) = d.
Proof.
  intros Hd. induction p as [|c p IH].
  - unfold String.app. simpl. by rewrite Hd.
  - pose proof (contains_dot_app_dot p d) as Hdot.
    unfold String.app in *. simpl. by rewrite Hdot.
Qed.

Lemma sanitize_dot_free (o : option string) (s : string) :
  sanitize o = Some s → contains_dot s = false.
Proof.
  unfold sanitize. destruct o as [s0|]; [|done].
  destruct (truthy (Some s0)) eqn:Ht; simpl.
  - destruct (contains_dot s0) eqn:Hd; intros [= <-]; [|done].
    apply contains_dot_split_dot_last.
  - intros [= <-]. unfold truthy in Ht. apply negb_false_iff in Ht.
    by apply bool_decide_eq_true in Ht as ->.
Qed.

(** X2: sanitization turns "project.dataset" into "dataset" (whatever
    the prefix, as long as the last component has no dot), leaves a value
    without a dot unchanged, and is idempotent. *)
Theorem sanitize_strips_qualifier (p d s : string) :
  (contains_dot d = false → sanitize (Some (p +:+ "." +:+ d)) = Some d) ∧
  (contains_dot s = false → sanitize (Some s) = Some s) ∧
  sanitize (sanitize (Some s)) = sanitize (Some s).
Proof.
  split_and!.
  - intros Hd. unfold sanitize.
    assert (truthy (Some (p +:+ "." +:+ d)) = true) as ->.
    { unfold truthy. apply negb_true_iff, bool_decide_eq_false.
      intros Heq. pose proof (contains_dot_app_dot p d) as Hdot. by rewrite Heq in Hdot. }
    rewrite contains_dot_app_dot. simpl. by rewrite split_dot_last_app_dot.
  - intros Hs. unfold sanitize. rewrite Hs. by rewrite andb_false_r.
  - destruct (sanitize (Some s)) as [s'|] eqn:Hs; [|done].
    apply sanitize_dot_free in Hs. unfold sanitize. rewrite Hs. by rewrite andb_false_r.
Qed.

Lemma sanitize_strips_qualifier_witness :
  sanitize (Some "proj.audit") = Some "audit" ∧ sanitize (Some "audit") = Some "audit".
Proof.
  pose proof (sanitize_strips_qualifier "proj" "audit" "audit") as (H1 & H2 & _).
  split; [exact (H1 eq_refl) | exact (H2 eq_refl)].
Defined.

(** X1: whenever start-up gets past its checks, the project, admin and
    service identities are non-empty, the table name is set, neither the
    table name nor the dataset identifier contains a dot, and the only
    thing done so far is the construction of the store client. *)
Theorem loaded_settings_invariant (environ : gmap string string)
    (client_init : option string → option exn) (s : Settings) (evs : list StartupEvent) :
  module_init environ client_init = (Loaded s, evs) →
  truthy (PROJECT_ID s) = true ∧
  truthy (ADMIN_USER_EMAIL s) = true ∧
  truthy (SERVICE_ACCOUNT_EMAIL s) = true ∧
  (∃ t, MANIFEST_TABLE_ID s = Some t ∧ contains_dot t = false) ∧
  (∀ d, DATASET_ID s = Some d → contains_dot d = false) ∧
  evs = [ClientInit (PROJECT_ID s)].
Proof.
  unfold module_init. cbv zeta.
  destruct (negb (forallb truthy _)) eqn:Hall; [done|].
  destruct (client_init (environ !! "PROJECT_ID")); [done|].
  intros [= <- <-]. cbn [PROJECT_ID ADMIN_USER_EMAIL SERVICE_ACCOUNT_EMAIL
                          MANIFEST_TABLE_ID DATASET_ID].
  apply negb_false_iff in Hall. cbn [forallb] in Hall.
  apply andb_true_iff in Hall as [Hp Hall]. apply andb_true_iff in Hall as [Ha Hall].
  apply andb_true_iff in Hall as [Hs _].
  split_and!; try done.
  - destruct (sanitize (Some (default "manifest_audit_log" (environ !! "MANIFEST_TABLE_ID"))))
      as [t|] eqn:Ht; [|by unfold sanitize in Ht; case_match].
    exists t. split; [done|]. by eapply sanitize_dot_free.
  - intros d Hd. by eapply sanitize_dot_free.
Qed.

Lemma loaded_settings_invariant_witness :
  truthy (PROJECT_ID settings0) = true ∧
  truthy (ADMIN_USER_EMAIL settings0) = true ∧
  truthy (SERVICE_ACCOUNT_EMAIL settings0) = true ∧
  (∃ t, MANIFEST_TABLE_ID settings0 = Some t ∧ contains_dot t = false) ∧
  (∀ d, DATASET_ID settings0 = Some d → contains_dot d = false) ∧
  [ClientInit (Some "proj")] = [ClientInit (PROJECT_ID settings0)].
Proof.
  apply (loaded_settings_invariant environ_no_table client_ok). by vm_compute.
Defined.

(** X3: with the required variables present, a store client
    constructor that raises makes start-up log a critical record and
    exit with code 1. *)
Theorem startup_client_failure (environ : gmap string string)
    (client_init : option string → option exn) (e : exn) :
  ¬ required_missing environ →
  client_init (environ !! "PROJECT_ID") = Some e →
  module_init environ client_init
  = (SysExit 1, [ClientInit (environ !! "PROJECT_ID"); CriticalClientInit e]).
Proof.
  unfold required_missing, module_init. intros Hall Hci. simpl.
  destruct (truthy (environ !! "PROJECT_ID")) eqn:Hp; [|tauto].
  destruct (truthy (environ !! "ADMIN_USER_EMAIL")) eqn:Ha; [|tauto].
  destruct (truthy (environ !! "SERVICE_ACCOUNT_EMAIL")) eqn:Hs; [|tauto].
  simpl. by rewrite Hci.
Qed.

Lemma startup_client_failure_witness :
  module_init environ_no_table client_fails
  = (SysExit 1, [ClientInit (environ_no_table !! "PROJECT_ID");
                 CriticalClientInit (OtherException "DefaultCredentialsError")]).
Proof.
  apply startup_client_failure; [|reflexivity].
  intros [H | [H | H]]; vm_compute in H; discriminate.
Defined.


(** ** Manifest extractor: first match, requests and sleeps *)

(** X4: the extractor's loop returns the source of the first file named
    "appsscript" of type "JSON"; the files after it are not looked at. *)
Theorem manifest_of_first_match (before after : list ScriptFile) (f : ScriptFile) :
  Forall (λ g, ¬ is_manifest g) before → is_manifest f →
  manifest_of (before ++ f :: after) = sf_source f.
Proof.
  intros Hbefore Hf. unfold manifest_of.
  assert (list_find is_manifest (before ++ f :: after) = Some (length before, f)) as ->; [|done].
  apply list_find_Some. split_and!.
  - by apply list_lookup_middle.
  - done.
  - intros j g Hj Hlt. rewrite lookup_app_l in Hj by done.
    rewrite Forall_forall in Hbefore. apply Hbefore.
    by eapply list_elem_of_lookup_2.
Qed.

Lemma manifest_of_first_match_witness :
  manifest_of ([code_file] ++ manifest_file :: [empty_manifest_file]) = Some "{}".
Proof.
  apply (manifest_of_first_match [code_file] [empty_manifest_file] manifest_file).
  - constructor; [|constructor]. intros [H _]. discriminate.
  - split; reflexivity.
Defined.

Lemma get_manifest_content_body_footprint E sid svc (w : World) :
  let w' := (get_manifest_content_body E sid svc w).2 in
  trace w' = trace w ++ [EvGetContent (svc_subject svc) sid] ∧
  clock w' = S (clock w) ∧ sleeps w' = sleeps w ∧
  dataset w' = dataset w ∧ batcher w' = batcher w.
Proof.
  unfold get_manifest_content_body, getContent. unfold_monad. simpl.
  repeat (case_match; simplify_eq/=); done.
Qed.

Lemma retry_loop_footprint E sid svc (budget k : nat) (w : World) :
  (1 ≤ k ≤ 3)%nat →
  let out := retry_loop budget k (get_manifest_content_body E sid svc) w in
  (k ≤ out.2 ≤ 3)%nat ∧
  trace out.1.2 = trace w ++ replicate (S (out.2 - k)) (EvGetContent (svc_subject svc) sid) ∧
  clock out.1.2 = (clock w + S (out.2 - k))%nat ∧
  (∃ l, sleeps out.1.2 = sleeps w ++ l ∧ length l = (out.2 - k)%nat ∧
        Forall (λ x, 2 ≤ x ≤ 10) l) ∧
  dataset out.1.2 = dataset w ∧ batcher out.1.2 = batcher w.
Proof.
  revert k w. induction budget as [|b IH]; intros k w Hk; cbn [retry_loop];
    destruct (get_manifest_content_body_footprint E sid svc w) as (Htr & Hcl & Hsl & Hds & Hbt);
    destruct (get_manifest_content_body E sid svc w) as [[a|e] w1]; cbn [fst snd] in *.
  1,2,3: try (destruct (retry_if_exception_type e); [destruct (stop_after_attempt 3 k)|]);
         cbn [fst snd]; rewrite Nat.sub_diag;
         (split_and!; [lia | lia | done | lia | | done | done]);
         exists []; by rewrite app_nil_r.
  destruct (retry_if_exception_type e).
  2:{ cbn [fst snd]; rewrite Nat.sub_diag;
      (split_and!; [lia | lia | done | lia | | done | done]);
      exists []; by rewrite app_nil_r. }
  unfold stop_after_attempt. case_bool_decide as Hstop.
  { cbn [fst snd]; rewrite Nat.sub_diag;
    (split_and!; [lia | lia | done | lia | | done | done]);
    exists []; by rewrite app_nil_r. }
  {
    set (w2 := (sleep (wait_exponential 1 2 10 k) w1).2).
    destruct (IH (S k) w2 ltac:(lia)) as (Hn & Htr' & Hcl' & (l & Hsl' & Hlen & Hbd) & Hds' & Hbt').
    set (out := retry_loop b (S k) (get_manifest_content_body E sid svc) w2) in *.
    change (trace w2) with (trace w1) in Htr'. change (clock w2) with (clock w1) in Hcl'.
    change (sleeps w2) with (sleeps w1 ++ [wait_exponential 1 2 10 k]) in Hsl'.
    change (dataset w2) with (dataset w1) in Hds'. change (batcher w2) with (batcher w1) in Hbt'.
    split_and!.
    + lia.
    + lia.
    + rewrite Htr', Htr, <- app_assoc. f_equal.
      replace (S (out.2 - k)) with (S (S (out.2 - S k))) by lia. done.
    + rewrite Hcl', Hcl. lia.
    + exists (wait_exponential 1 2 10 k :: l). split_and!.
      * rewrite Hsl', Hsl, <- app_assoc. done.
      * simpl. lia.
      * constructor; [apply wait_exponential_bounds|done].
    + congruence.
    + congruence. }
Qed.

Lemma get_manifest_content_trace E sid svc (w : World) :
  let w' := (get_manifest_content E sid svc w).2 in
  ∃ n l, (1 ≤ n ≤ 3)%nat ∧
    trace w' = trace w ++ replicate n (EvGetContent (svc_subject svc) sid) ∧
    clock w' = (clock w + n)%nat ∧
    sleeps w' = sleeps w ++ l ∧ length l = (n - 1)%nat ∧ Forall (λ x, 2 ≤ x ≤ 10) l ∧
    dataset w' = dataset w ∧ batcher w' = batcher w.
Proof.
  destruct (retry_loop_footprint E sid svc 3 1 w ltac:(lia))
    as (Hn & Htr & Hcl & (l & Hsl & Hlen & Hbd) & Hds & Hbt).
  unfold get_manifest_content, retry. cbn [snd].
  set (out := retry_loop 3 1 (get_manifest_content_body E sid svc) w) in *.
  exists out.2, l.
  replace (S (out.2 - 1)) with out.2 in * by lia.
  split_and!; try done; lia.
Qed.

(** X5: one call of the decorated extractor sends between one and three
    getContent requests for that script and nothing else, sleeps once
    between two consecutive requests, each time between 2 and 10
    seconds, and leaves the tables and the batcher alone. *)
Theorem get_manifest_content_footprint E sid svc (w : World) :
  let w' := (get_manifest_content E sid svc w).2 in
  ∃ n l, (1 ≤ n ≤ 3)%nat ∧
    trace w' = trace w ++ replicate n (EvGetContent (svc_subject svc) sid) ∧
    clock w' = (clock w + n)%nat ∧
    sleeps w' = sleeps w ++ l ∧ length l = (n - 1)%nat ∧ Forall (λ x, 2 ≤ x ≤ 10) l ∧
    dataset w' = dataset w ∧ batcher w' = batcher w.
Proof. apply get_manifest_content_trace. Qed.

(** ** Per-user scan: what it emits and what it touches *)

Lemma scan_file_spec E email svc (f : DriveFile) (rows : list Row) (w : World) :
  scan_post email [f] rows w (scan_file E email svc f rows w).
Proof.
  destruct (get_manifest_content_trace E (file_id f) svc w)
    as (n & l & _ & Htr & _ & _ & _ & _ & Hds & Hbt).
  unfold scan_post, scan_file. unfold_monad.
  destruct (get_manifest_content E (file_id f) svc w) as [[[json|]|e] w1]; cbn [fst snd] in *.
  - destruct (nonempty (Some json)) eqn:Hne; cbn [fst snd].
    + eexists [_], _. split_and!; [reflexivity| | |exact Htr| |done|done].
      * constructor; [|done]. split; [done|]. simpl.
        unfold nonempty, truthy in Hne. apply negb_true_iff, bool_decide_eq_false in Hne. done.
      * done.
      * by apply Forall_replicate.
    + exists [], (replicate n (EvGetContent (svc_subject svc) (file_id f))).
      rewrite app_nil_r. split_and!; try done; [apply sublist_nil_l | by apply Forall_replicate].
  - exists [], (replicate n (EvGetContent (svc_subject svc) (file_id f))).
    rewrite app_nil_r. split_and!; try done; [apply sublist_nil_l | by apply Forall_replicate].
  - exists [], (replicate n (EvGetContent (svc_subject svc) (file_id f))).
    rewrite app_nil_r. split_and!; try done; [apply sublist_nil_l | by apply Forall_replicate].
Qed.

Lemma scan_files_spec E email svc (files : list DriveFile) (rows : list Row) (w : World) :
  scan_post email files rows w (scan_files E email svc files rows w).
Proof.
  revert rows w. induction files as [|f files IH]; intros rows w.
  - exists [], []. rewrite !app_nil_r. split_and!; done.
  - cbn [scan_files]. unfold mbind, M_bind.
    destruct (scan_file_spec E email svc f rows w)
      as (new1 & evs1 & Hres1 & Hem1 & Hsub1 & Htr1 & Hev1 & Hds1 & Hbt1).
    destruct (scan_file E email svc f rows w) as [r1 w1]. cbn [fst snd] in *. subst r1.
    destruct (IH (rows ++ new1) w1)
      as (new2 & evs2 & Hres2 & Hem2 & Hsub2 & Htr2 & Hev2 & Hds2 & Hbt2).
    exists (new1 ++ new2), (evs1 ++ evs2). split_and!.
    + by rewrite Hres2, app_assoc.
    + by apply Forall_app.
    + rewrite fmap_app. change (file_key <$> f :: files) with ([file_key f] ++ (file_key <$> files)).
      by apply sublist_app.
    + by rewrite Htr2, Htr1, app_assoc.
    + by apply Forall_app.
    + congruence.
    + congruence.
Qed.

Lemma files_pages_spec E email svc (l : listing DriveFile) (rows : list Row) (w : World) :
  let out := files_pages E email svc l rows w in
  ∃ new evs,
    out.1 = Ret (rows ++ new, (pages_items l).2) ∧
    Forall (emitted_by email) new ∧
    (row_key <$> new) `sublist_of` (file_key <$> (pages_items l).1) ∧
    trace out.2 = trace w ++ evs ∧
    Forall (λ ev, is_scan_request ev = true) evs ∧
    dataset out.2 = dataset w ∧ batcher out.2 = batcher w.
Proof.
  revert rows w. induction l as [files|files rest IH|e]; intros rows w;
    cbn [files_pages pages_items fst snd]; unfold mbind, M_bind; cbn [request].
  - destruct (scan_files_spec E email svc files rows (request (EvFilesList email) w).2)
      as (new & evs & Hres & Hem & Hsub & Htr & Hev & Hds & Hbt).
    cbn [request snd] in *.
    destruct (scan_files E email svc files rows _) as [r1 w1].
    cbn [fst snd trace dataset batcher] in *. subst r1.
    exists new, (EvFilesList email :: evs). unfold mret, M_ret. cbn [fst snd].
    split_and!; try done.
    + by rewrite Htr, <- app_assoc.
    + by constructor.
  - destruct (scan_files_spec E email svc files rows (request (EvFilesList email) w).2)
      as (new & evs & Hres & Hem & Hsub & Htr & Hev & Hds & Hbt).
    cbn [request snd] in *.
    destruct (scan_files E email svc files rows _) as [r1 w1].
    cbn [fst snd trace dataset batcher] in *. subst r1.
    destruct (IH (rows ++ new) w1)
      as (new2 & evs2 & Hres2 & Hem2 & Hsub2 & Htr2 & Hev2 & Hds2 & Hbt2).
    exists (new ++ new2), (EvFilesList email :: evs ++ evs2). split_and!.
    + by rewrite Hres2, app_assoc.
    + by apply Forall_app.
    + rewrite !fmap_app. by apply sublist_app.
    + rewrite Htr2, Htr, <- !app_assoc. done.
    + constructor; [done|]. by apply Forall_app.
    + congruence.
    + congruence.
  - exists [], [EvFilesList email]. unfold mret, M_ret. cbn [fst snd]. rewrite app_nil_r.
    split_and!; try done. by repeat constructor.
Qed.

(** X7: a user's scan always returns; every row it returns is owned by
    the scanned user and has a non-empty manifest, and the (script_id,
    script_name) pairs of the rows are, in order, a sub-sequence of the
    (id, name) pairs of the files listed before any listing failure. *)
Theorem scan_user_emits E email (w : World) :
  ∃ rows,
    (scan_user_for_manifests E email w).1 = Ret rows ∧
    Forall (emitted_by email) rows ∧
    (row_key <$> rows) `sublist_of` (file_key <$> (pages_items (files_listing E email)).1).
Proof.
  destruct (decide (auth E (clock w) "drive" email = None)) as [Hd|Hd];
    [destruct (decide (auth E (S (clock w)) "script" email = None)) as [Hs|Hs]|].
  - destruct (files_pages_spec E email (script_service_of email) (files_listing E email) []
                (after_handles email w)) as (new & evs & Hres & Hem & Hsub & _).
    exists new. split_and!; [|done|done].
    destruct (files_pages E email _ _ _ _) as [r w3] eqn:Hrun. cbn [fst] in Hres. subst r.
    by eapply scan_user_with_handles.
  - exists []. split_and!; [|done|apply sublist_nil_l].
    apply scan_user_without_handles. by right.
  - exists []. split_and!; [|done|apply sublist_nil_l].
    apply scan_user_without_handles. by left.
Qed.

Lemma scan_user_trace E email (w : World) :
  let w' := (scan_user_for_manifests E email w).2 in
  ∃ evs,
    trace w' = trace w ++ [EvAuth "drive" "v3" email; EvAuth "script" "v1" email] ++ evs ∧
    Forall (λ ev, is_scan_request ev = true) evs ∧
    (auth E (clock w) "drive" email ≠ None ∨ auth E (S (clock w)) "script" email ≠ None →
     evs = []) ∧
    dataset w' = dataset w ∧ batcher w' = batcher w.
Proof.
  cbv zeta.
  destruct (scan_user_for_manifests E email w) as [res w'] eqn:Hrun.
  unfold scan_user_for_manifests in Hrun.
  unfold mbind at 1 in Hrun. unfold M_bind at 1 in Hrun.
  rewrite get_impersonated_service_run in Hrun.
  destruct (auth E (clock w) "drive" email) as [e1|] eqn:Hd;
    unfold mbind at 1 in Hrun; unfold M_bind at 1 in Hrun;
    rewrite get_impersonated_service_run in Hrun;
    cbn [request logger snd clock] in Hrun;
    destruct (auth E (S (clock w)) "script" email) as [e2|] eqn:Hs.
  1,2,3: unfold_monad; simplify_eq/=; exists []; rewrite <- app_assoc; split_and!; done.
  unfold mbind at 1 in Hrun. unfold M_bind at 1 in Hrun.
  destruct (files_pages_spec E email (script_service_of email) (files_listing E email) []
              (after_handles email w)) as (new & evs & Hres & _ & _ & Htr & Hev & Hds & Hbt).
  unfold after_handles, script_service_of in *.
  cbn [request snd clock trace dataset batcher] in *.
  destruct (files_pages E email _ _ _ _) as [r w3]. cbn [fst snd] in *. subst r.
  exists evs. cbn [app] in Hrun.
  destruct (pages_items (files_listing E email)).2; [|destruct new]; unfold_monad;
    simplify_eq/=; rewrite Htr, <- !app_assoc; split_and!; try done;
    intros [?|?]; done.
Qed.

(** X8: a user's scan first requests the drive handle and then the
    script handle, both in every case; if either fails it sends nothing
    more; otherwise it only sends file-listing and getContent requests;
    it never changes the tables or the batcher. *)
Theorem scan_user_footprint E email (w : World) :
  let w' := (scan_user_for_manifests E email w).2 in
  ∃ evs,
    trace w' = trace w ++ [EvAuth "drive" "v3" email; EvAuth "script" "v1" email] ++ evs ∧
    Forall (λ ev, is_scan_request ev = true) evs ∧
    (auth E (clock w) "drive" email ≠ None ∨ auth E (S (clock w)) "script" email ≠ None →
     evs = []) ∧
    dataset w' = dataset w ∧ batcher w' = batcher w.
Proof. apply scan_user_trace. Qed.

Lemma scan_user_footprint_witness :
  trace (scan_user_for_manifests no_drive_handle "a@example.com" world0).2
  = [EvAuth "drive" "v3" "a@example.com"; EvAuth "script" "v1" "a@example.com"].
Proof.
  destruct (scan_user_footprint no_drive_handle "a@example.com" world0)
    as (evs & Htr & _ & Hnil & _).
  rewrite Hnil in Htr; [exact Htr|]. left. by vm_compute.
Defined.

(** ** Merge-upsert sink: all or nothing *)

Lemma sink_all_or_nothing_configured cfg E tid r rows (w : World) d :
  DATASET_ID cfg = Some d →
  let temp := temp_table_name E tid (clock w) in
  let w' := (execute_merge_query cfg E tid (r :: rows) w).2 in
  let merged := ∃ T T', dataset w !! tid = Some T ∧
                        merge_statement T (r :: rows) = Some T' ∧
                        dataset w' !! tid = Some T' in
  (∀ name, name ≠ tid → name ≠ temp → dataset w' !! name = dataset w !! name) ∧
  (dataset w' !! tid = dataset w !! tid ∨ merged) ∧
  (last (log w') = Some (INFO, Merged (length (r :: rows)) tid) → merged).
Proof.
  intros Hd temp.
  pose proof (temp_table_name_fresh E tid (clock w)) as Hfresh. fold temp in Hfresh.
  unfold execute_merge_query, dataset_reference, get_table, load_table_from_json,
    query_merge, delete_table, bq_request.
  unfold_monad. simpl. rewrite Hd. fold temp.
  generalize dependent temp. intros temp Hfresh.
  repeat (case_match; simplify_eq/=).
  all: rewrite ?last_snoc.
  all: split_and!; [intros name Hn1 Hn2; by simplify_map_eq | |intros [=]].
  all: try (left; by simplify_map_eq).
  all: try right; eexists _, _; simplify_map_eq; done.
Qed.

(** X9: a flush of a non-empty batch changes no table other than the
    target and its own staging table; the target is afterwards either
    exactly as before or exactly the result of the MERGE of the whole
    batch, and it is the latter whenever the success record was logged
    by this call (with a dataset identifier configured: whenever the
    last log record is that success record). *)
Theorem sink_all_or_nothing cfg E tid r rows (w : World) :
  let temp := temp_table_name E tid (clock w) in
  let w' := (execute_merge_query cfg E tid (r :: rows) w).2 in
  let merged := ∃ T T', dataset w !! tid = Some T ∧
                        merge_statement T (r :: rows) = Some T' ∧
                        dataset w' !! tid = Some T' in
  (∀ name, name ≠ tid → name ≠ temp → dataset w' !! name = dataset w !! name) ∧
  (dataset w' !! tid = dataset w !! tid ∨ merged) ∧
  (∀ l, log w' = log w ++ l →
        last l = Some (INFO, Merged (length (r :: rows)) tid) → merged) ∧
  (∀ d, DATASET_ID cfg = Some d →
        last (log w') = Some (INFO, Merged (length (r :: rows)) tid) → merged).
Proof.
  intros temp w' merged.
  destruct (DATASET_ID cfg) as [d|] eqn:Hd.
  - destruct (sink_all_or_nothing_configured cfg E tid r rows w d Hd) as (Hframe & Htgt & Hlog).
    destruct (execute_merge_query_spec cfg E tid r rows w d Hd)
      as (_ & _ & _ & _ & _ & Hrec & _).
    split_and!; try done.
    intros l Hl Hlast. apply Hlog.
    fold w' in Hrec. rewrite Hrec in Hl. apply app_inv_head in Hl. subst l.
    fold w'. rewrite Hrec, last_snoc. exact Hlast.
  - subst w' merged. rewrite (execute_merge_query_unconfigured cfg E tid r rows w Hd).
    simpl. split_and!; try done; try (by left).
    intros l Hl. rewrite <- (app_nil_r (log w)) in Hl at 1.
    apply app_inv_head in Hl. by subst l.
Qed.

Lemma sink_all_or_nothing_witness :
  ∃ T T', dataset world_with_target !! "manifest_audit_log" = Some T ∧
          merge_statement T [row1] = Some T' ∧
          dataset (execute_merge_query settings0 quiet "manifest_audit_log" [row1]
                     world_with_target).2 !! "manifest_audit_log" = Some T'.
Proof.
  apply (proj1 (proj2 (proj2 (sink_all_or_nothing settings0 quiet "manifest_audit_log" row1 []
                                world_with_target)))
           [(INFO, Merged 1 "manifest_audit_log")]); by vm_compute.
Defined.

(** Without a dataset identifier nothing is merged and nothing is
    logged, so a success record that ends the log is an older one. *)
Example stale_success_record :
  let w' := (execute_merge_query settings_no_dataset quiet "manifest_audit_log" [row1]
               world_after_success).2 in
  last (log w') = Some (INFO, Merged 1 "manifest_audit_log") ∧
  dataset w' !! "manifest_audit_log" = Some [].
Proof. by vm_compute. Qed.

(** The sink sends no request for a handle and none of a scan. *)
Lemma execute_merge_query_requests cfg E tid rows (w : World) :
  let w' := (execute_merge_query cfg E tid rows w).2 in
  auth_subjects (trace w') = auth_subjects (trace w).
Proof.
  destruct rows as [|r rows]; [by unfold auth_subjects; simpl; rewrite omap_app, app_nil_r|].
  unfold execute_merge_query, dataset_reference, get_table, load_table_from_json,
    query_merge, delete_table, bq_request.
  unfold_monad. simpl.
  repeat (case_match; simplify_eq/=).
  all: unfold auth_subjects; rewrite ?omap_app; simpl; by rewrite ?app_nil_r.
Qed.

(** ** Batching buffer: nothing lost between accumulator and sink *)


(** X13: [add] loses and duplicates nothing: when it returns, the rows
    handed to the sink followed by the rows left in the buffer are the
    old buffer followed by the new rows; when it raises, the buffer
    holds all of them; an accumulator below the threshold stays below
    it; the sink is only ever called with the batcher's table. *)
Theorem add_conserves_rows cfg E (rows : list Row) (w : World) :
  let res := (add cfg E rows w).1 in
  let w' := (add cfg E rows w).2 in
  ∃ delta,
    sink_calls (trace w') = sink_calls (trace w) ++ delta ∧
    Forall (λ c, c.1 = table_id (batcher w)) delta ∧
    (res = Ret () → concat (snd <$> delta) ++ buffer (batcher w') = buffer (batcher w) ++ rows) ∧
    (∀ e, res = Raise e → buffer (batcher w') = buffer (batcher w) ++ rows) ∧
    ((length (buffer (batcher w)) < BQ_BATCH_SIZE)%nat → res = Ret () →
     (length (buffer (batcher w')) < BQ_BATCH_SIZE)%nat) ∧
    table_id (batcher w') = table_id (batcher w).
Proof.
  cbv zeta.
  destruct (decide (rows = [] ∨ (length (buffer (batcher w) ++ rows) < BQ_BATCH_SIZE)%nat))
    as [Hlow|Hhigh].
  - rewrite (add_below_threshold cfg E rows w Hlow). exists []. cbn [fst snd].
    rewrite app_nil_r. split_and!; try done.
    intros Hinv _. simpl. destruct Hlow as [->|Hlt]; [by rewrite app_nil_r|done].
  - assert (rows ≠ []) as Hne by tauto.
    assert (BQ_BATCH_SIZE ≤ length (buffer (batcher w) ++ rows))%nat as Hge by lia.
    rewrite (add_at_threshold cfg E rows w Hne Hge).
    set (w1 := with_buffer (buffer (batcher w) ++ rows) w).
    assert (buffer (batcher w1) ≠ []) as Hb.
    { simpl. destruct rows; [done|]. by destruct (buffer (batcher w)). }
    destruct (flush_nonempty_spec cfg E w1 Hb) as (Hs & Htid & Hbuf).
    change (buffer (batcher w1)) with (buffer (batcher w) ++ rows) in *.
    change (table_id (batcher w1)) with (table_id (batcher w)) in *.
    change (trace w1) with (trace w) in *.
    exists [(table_id (batcher w), buffer (batcher w) ++ rows)].
    split_and!; try done.
    + by constructor.
    + intros Hres. rewrite Hbuf, Hres. simpl. by rewrite !app_nil_r.
    + intros e Hres. by rewrite Hbuf, Hres.
    + intros _ Hres. rewrite Hbuf, Hres. simpl. unfold BQ_BATCH_SIZE. lia.
Qed.

Lemma add_conserves_rows_witness :
  ∃ delta,
    sink_calls (trace (add settings0 quiet [row1] world_with_target).2)
      = sink_calls (trace world_with_target) ++ delta ∧
    concat (snd <$> delta) ++ buffer (batcher (add settings0 quiet [row1] world_with_target).2)
      = buffer (batcher world_with_target) ++ [row1].
Proof.
  destruct (add_conserves_rows settings0 quiet [row1] world_with_target)
    as (delta & Hs & _ & Hret & _).
  exists delta. split; [exact Hs|]. apply Hret. reflexivity.
Defined.

(** ** Entry point: who is scanned and when the run fails *)

Lemma auth_subjects_scan_requests (evs : list Event) :
  Forall (λ ev, is_scan_request ev = true) evs → auth_subjects evs = [].
Proof.
  induction 1 as [|ev evs Hev _ IH]; [done|].
  destruct ev; try discriminate; exact IH.
Qed.

Lemma flush_requests cfg E (w : World) :
  auth_subjects (trace (flush cfg E w).2) = auth_subjects (trace w).
Proof.
  unfold flush. unfold_monad. destruct (buffer (batcher w)) as [|r rows]; [done|].
  set (w1 := mkWorld _ _ _ _ _ _).
  pose proof (execute_merge_query_requests cfg E (table_id (batcher w)) (r :: rows) w1) as Hreq.
  cbv zeta in Hreq. change (trace w1) with (trace w) in Hreq.
  by destruct (execute_merge_query cfg E (table_id (batcher w)) (r :: rows) w1) as [[[]|e] w2].
Qed.

Lemma add_requests cfg E rows (w : World) :
  auth_subjects (trace (add cfg E rows w).2) = auth_subjects (trace w).
Proof.
  unfold add. destruct rows as [|r rows]; [done|]. unfold_monad. cbn [buffer batcher].
  case_decide; [|done].
  match goal with |- context [flush cfg E ?w1] => by rewrite (flush_requests cfg E w1) end.
Qed.

Lemma concat_insert_head {X} (scans : list (list X)) (i : nat) (x : X) (xs : list X) :
  scans !! i = Some (x :: xs) → concat scans ≡ₚ x :: concat (<[i := xs]> scans).
Proof.
  intros Hi.
  rewrite <- (take_drop_middle scans i (x :: xs) Hi) at 1.
  rewrite insert_take_drop by (by eapply lookup_lt_Some).
  rewrite !concat_app. cbn [concat app].
  by rewrite <- Permutation_middle.
Qed.

(** Whatever the schedule, an interleaving holds what the threads
    recorded, each record once. *)
Lemma interleave_Permutation {X} (limit : nat) (picks : list nat)
    (scans : list (list X)) (main : list (nat * list X)) :
  interleave limit picks scans main ≡ₚ concat scans ++ concat (snd <$> main).
Proof.
  revert scans main. induction picks as [|[|i] picks IH]; intros scans main; [done| |].
  - cbn [interleave]. destruct main as [|[j seg] rest]; [apply IH|].
    destruct (scans !! j) as [[|y ys]|]; [|apply IH|].
    1,2: destruct seg as [|x seg'];
      [by rewrite IH|rewrite IH; cbn [fmap list_fmap concat snd app];
                      by rewrite <- Permutation_middle].
  - cbn [interleave]. destruct (scans !! i) as [[|x xs]|] eqn:Hi; [apply IH| |apply IH].
    case_decide; [|apply IH].
    rewrite IH. rewrite (concat_insert_head scans i x xs Hi). done.
Qed.

Lemma as_completed_Permutation E (n : nat) : as_completed E n ≡ₚ seq 0 n.
Proof. unfold as_completed. apply merge_sort_Permutation. Qed.

Lemma submitted_subjects E (g : nat → nat) (emails : list string) :
  auth_subjects
    (concat (obs_trace <$> ((λ f : string * (result (list Row) * World), recorded f.2.2) <$>
       imap (λ i email, (email, scan_user_for_manifests E email (thread_world (g i)))) emails)))
  = emails ≫= λ email, [email; email].
Proof.
  revert g. induction emails as [|email emails IH]; intros g; [done|].
  rewrite imap_cons. cbn [fmap list_fmap concat mbind list_bind recorded obs_trace snd].
  pose proof (IH (g ∘ S)) as IH'.
  unfold auth_subjects in *. rewrite omap_app.
  trans ([email; email] ++ (emails ≫= λ email, [email; email])); [|done].
  f_equal; [|exact IH'].
  destruct (scan_user_trace E email (thread_world (g 0%nat))) as (evs & -> & Hscan & _).
  change (omap _ (_ ++ _ ++ evs)) with (email :: email :: auth_subjects evs).
  by rewrite (auth_subjects_scan_requests evs Hscan).
Qed.

Lemma handle_future_requests cfg E email outcome (w : World) :
  auth_subjects (trace (handle_future cfg E email outcome w).2) = auth_subjects (trace w).
Proof.
  unfold handle_future, try_except. unfold mbind, M_bind.
  destruct outcome as [rows|e]; [|done].
  pose proof (add_requests cfg E rows w) as Hadd.
  by destruct (add cfg E rows w) as [[[]|e] w1].
Qed.

Lemma collect_results_requests cfg E done (w : World) :
  auth_subjects
    (concat (snd <$> ((λ s : nat * Obs, (s.1, obs_trace s.2)) <$> (collect_results cfg E done w).2)))
  = [].
Proof.
  revert w. induction done as [|[i [email outcome]] done IH]; intros w; [done|].
  cbn [collect_results snd fmap list_fmap concat fst recorded obs_trace].
  unfold auth_subjects in *. rewrite omap_app, IH, app_nil_r.
  apply (handle_future_requests cfg E email outcome (blank w)).
Qed.

Lemma run_pool_requests cfg E (emails : list string) (w : World) :
  (run_pool cfg E emails w).1 = Ret () ∧
  ∃ rest,
    auth_subjects (trace (run_pool cfg E emails w).2) = auth_subjects (trace w) ++ rest ∧
    rest ≡ₚ (emails ≫= λ email, [email; email]).
Proof.
  split; [done|].
  unfold run_pool. cbn [snd trace].
  match goal with |- context [trace w ++ ?t] => exists (auth_subjects t) end.
  split; [unfold auth_subjects; apply omap_app|].
  match goal with
  | |- context [collect_results cfg E ?done w] =>
      pose proof (collect_results_requests cfg E done w) as Hmain
  end.
  pose proof (submitted_subjects E (thread_clock E) emails) as Hscans.
  unfold auth_subjects, submit in *.
  by rewrite interleave_Permutation, omap_app, Hmain, app_nil_r, Hscans.
Qed.

Lemma main_handler_with_users cfg E (w : World) :
  auth E (clock w) "admin" (admin_of cfg) = None →
  listed_users (users_listing E) ≠ [] →
  main_handler cfg E w =
    match flush cfg E (before_final_flush cfg E w) with
    | (Ret _, w3) => (Ret ("Success", 200), (logger INFO PipelineCompleted w3).2)
    | (Raise e, w3) =>
        (Ret ("Failed: " +:+ str_exn e, 500), (logger CRITICAL (PipelineCriticalFailure e) w3).2)
    end.
Proof.
  intros Hauth Hsome. unfold main_handler, try_except.
  unfold mbind at 1. unfold M_bind at 1. cbn [logger].
  unfold mbind at 1. unfold M_bind at 1.
  rewrite get_impersonated_service_run. cbn [clock]. fold (admin_of cfg).
  rewrite Hauth.
  unfold mbind at 1. unfold M_bind at 1. cbn [BigQueryBatcher set_batcher].
  unfold mbind at 1. unfold M_bind at 1.
  unfold before_final_flush, listed_emails, after_admin_handle.
  cbn [BigQueryBatcher set_batcher logger request snd].
  match goal with
  | |- context [get_all_domain_users E ?s ?w0] =>
      destruct (get_all_domain_users_result E s w0) as (Hres & _);
      destruct (get_all_domain_users E s w0) as [res w1]
  end.
  cbn [fst snd] in *. rewrite Hres.
  destruct (listed_users (users_listing E)) as [|u us] eqn:Hl; [done|].
  unfold mbind at 1. unfold M_bind at 1.
  destruct (run_pool cfg E (primaryEmail <$> u :: us) w1) as [rc w2] eqn:Hpool.
  assert (rc = Ret ()) as -> by (by unfold run_pool in Hpool; simplify_eq).
  cbn [snd].
  unfold mbind at 1. unfold M_bind at 1.
  by destruct (flush cfg E w2) as [[[]|e] w3].
Qed.





(** X16: with an admin handle and a non-empty list of active users, the
    first handle requested in a run is the admin's; the handles requested
    after it are, in an order that depends on how the pool schedules the
    scans, two for every listed active user and nothing else: no scan is
    skipped because an earlier flush failed, and no other identity is
    impersonated. *)
Theorem every_collected_user_scanned cfg E (w : World) :
  auth E (clock w) "admin" (admin_of cfg) = None →
  listed_users (users_listing E) ≠ [] →
  ∃ rest,
    auth_subjects (trace (main_handler cfg E w).2)
    = auth_subjects (trace w) ++ admin_of cfg :: rest ∧
    rest ≡ₚ (listed_emails E ≫= λ email, [email; email]).
Proof.
  intros Hauth Hsome. rewrite (main_handler_with_users cfg E w Hauth Hsome).
  pose proof (flush_requests cfg E (before_final_flush cfg E w)) as Hflush.
  assert (∃ rest,
            auth_subjects (trace (before_final_flush cfg E w))
            = auth_subjects (trace w) ++ admin_of cfg :: rest ∧
            rest ≡ₚ (listed_emails E ≫= λ email, [email; email])) as (rest & Hbefore & Hperm).
  { unfold before_final_flush.
    match goal with
    | |- context [run_pool cfg E ?emails ?w1] =>
        destruct (run_pool_requests cfg E emails w1) as (_ & rest & Hpool & Hperm)
    end.
    exists rest. split; [|done]. rewrite Hpool.
    match goal with
    | |- context [get_all_domain_users E ?s ?w0] =>
        destruct (get_all_domain_users_result E s w0) as (_ & -> & _)
    end.
    unfold after_admin_handle. cbn [BigQueryBatcher set_batcher logger request snd trace].
    unfold auth_subjects at 1. rewrite !omap_app.
    fold (auth_subjects (trace w)).
    assert (omap (λ ev, match ev with EvAuth _ _ s => Some s | _ => None end)
              (replicate (pages_count (users_listing E)) EvUsersList) = []) as ->.
    { by induction (pages_count (users_listing E)). }
    rewrite app_nil_r, <- app_assoc. done. }
  exists rest. split; [|done].
  destruct (flush cfg E (before_final_flush cfg E w)) as [[[]|e] w3];
    cbn [fst snd logger trace] in *; congruence.
Qed.

Lemma every_collected_user_scanned_witness :
  auth_subjects (trace (main_handler settings0 two_users_interleaved world_with_target).2)
  = ["admin@example.com"; "a@example.com"; "b@example.com"; "a@example.com"; "b@example.com"] ∧
  ∃ rest,
    auth_subjects (trace (main_handler settings0 two_users_interleaved world_with_target).2)
    = auth_subjects (trace world_with_target) ++ admin_of settings0 :: rest ∧
    rest ≡ₚ (listed_emails two_users_interleaved ≫= λ email, [email; email]).
Proof.
  split; [by vm_compute|].
  apply (every_collected_user_scanned settings0 two_users_interleaved world_with_target);
    [reflexivity|].
  intros H. vm_compute in H. discriminate.
Defined.

Lemma Forall_filter_active (l : list User) : Forall active (filter active l).
Proof. apply Forall_forall. intros u Hu. by apply list_elem_of_filter in Hu as [? _]. Qed.

(** X6: the directory listing always returns; the users it returns are
    all unsuspended and, in order, a sub-sequence of the listed ones; it
    sends one request per page and touches neither tables nor batcher. *)
Theorem get_all_domain_users_total E svc (w : World) :
  let w' := (get_all_domain_users E svc w).2 in
  ∃ users,
    (get_all_domain_users E svc w).1 = Ret users ∧
    Forall active users ∧
    users `sublist_of` (pages_items (users_listing E)).1 ∧
    trace w' = trace w ++ replicate (pages_count (users_listing E)) EvUsersList ∧
    dataset w' = dataset w ∧ batcher w' = batcher w.
Proof.
  destruct (get_all_domain_users_result E svc w) as (Hres & Htr & Hds & Hbt).
  exists (listed_users (users_listing E)). split_and!; try done.
  - unfold listed_users. destruct (pages_items (users_listing E)).2; [done|].
    apply Forall_filter_active.
  - unfold listed_users. destruct (pages_items (users_listing E)).2; [apply sublist_nil_l|].
    apply sublist_filter.
Qed.

(** X11: an accepted MERGE never removes or reorders a script_id: the
    ids of the new table are the old ids followed by the ids of the
    inserted rows, so the table never shrinks; an id is in the new table
    exactly when it was in the old one or in the batch; an empty batch
    changes nothing. *)
Theorem merge_keeps_keys (T S T' : list Row) :
  merge_statement T S = Some T' →
  keys T' = keys T ++ keys (when_not_matched T S) ∧
  (length T ≤ length T')%nat ∧
  (∀ k, k ∈ keys T' ↔ k ∈ keys T ∨ k ∈ keys S) ∧
  (S = [] → T' = T).
Proof.
  unfold merge_statement. destruct (decide (ambiguous T S)); [done|]. intros [= <-].
  assert (keys ((when_matched S <$> T) ++ when_not_matched T S)
          = keys T ++ keys (when_not_matched T S)) as Hkeys.
  { unfold keys. rewrite fmap_app. f_equal. apply (keys_when_matched S T). }
  split_and!.
  - done.
  - rewrite length_app, length_fmap. lia.
  - intros k. rewrite Hkeys, elem_of_app, keys_when_not_matched.
    destruct (decide (k ∈ keys T)); tauto.
  - intros ->. unfold when_not_matched. rewrite filter_nil, app_nil_r.
    apply fmap_fixed. intros t _. apply when_matched_out. unfold keys. simpl. apply not_elem_of_nil.
Qed.

Lemma merge_keeps_keys_witness :
  keys [row2; row1] = keys [row2] ++ keys (when_not_matched [row2] [row1]) ∧
  (length [row2] ≤ length [row2; row1])%nat ∧
  (∀ k, k ∈ keys [row2; row1] ↔ k ∈ keys [row2] ∨ k ∈ keys [row1]) ∧
  ([row1] = [] → [row2; row1] = [row2]).
Proof.
  apply (merge_keeps_keys [row2] [row1] [row2; row1]). by vm_compute.
Defined.

(** X12: a table with one row per script_id stays so under the MERGE of
    a batch with distinct script_ids: the statement is accepted, every
    batch row is in the new table, and the rows of scripts outside the
    batch are kept. *)
Theorem merge_preserves_unique_keys (T S : list Row) :
  NoDup (keys T) → NoDup (keys S) →
  ∃ T', merge_statement T S = Some T' ∧
        NoDup (keys T') ∧
        (∀ s, s ∈ S → s ∈ T') ∧
        (∀ t, t ∈ T → script_id t ∉ keys S → t ∈ T').
Proof.
  intros HT HS.
  destruct (merge_statement_spec T S HT HS) as (T' & Hm & _ & Hnd & Hin & Hout).
  by exists T'.
Qed.

Lemma merge_preserves_unique_keys_witness :
  ∃ T', merge_statement [row2] [row1] = Some T' ∧
        NoDup (keys T') ∧
        (∀ s, s ∈ [row1] → s ∈ T') ∧
        (∀ t, t ∈ [row2] → script_id t ∉ keys [row1] → t ∈ T').
Proof.
  apply (merge_preserves_unique_keys [row2] [row1]).
  - vm_compute. apply NoDup_singleton.
  - vm_compute. apply NoDup_singleton.
Defined.

(** ** Merge-upsert sink: the successful path *)

Lemma execute_merge_query_merges_witness :
  (execute_merge_query settings0 quiet "manifest_audit_log" [row1] world_with_target).1 = Ret () ∧
  dataset (execute_merge_query settings0 quiet "manifest_audit_log" [row1] world_with_target).2
    !! "manifest_audit_log" = Some [row1] ∧
  dataset (execute_merge_query settings0 quiet "manifest_audit_log" [row1] world_with_target).2
    !! temp_table_name quiet "manifest_audit_log" (clock world_with_target) = None.
Proof.
  apply (execute_merge_query_merges settings0 quiet "manifest_audit_log" row1 []
           world_with_target "audit" []); [reflexivity | done | reflexivity | by vm_compute].
Defined.
